(** * multiScraperAPI: ticket events, team-name normalizer, filters, HTTP handler

    A shallow embedding of the Go packages [scraper] (types.go, formatter.go,
    the three scrapers, the team-name normalizer) and [main] (handleScrape),
    with the properties of the specification proved about it.

    Conventions.
    - A Go [string] is a Rocq [string]: a sequence of bytes (UTF-8 in the
      sources).
    - A Go [(T, error)] result is a pair whose second component is
      [option error]; [None] is Go's [nil].
    - Functions of Go's standard library and of third-party libraries are
      kept under their Go names in modules named after their packages
      ([strings.ToLower], [regexp], [time.Parse], [utf8]).  Where the Go
      function depends on Unicode tables, the ASCII behaviour is written out
      and the rest is a member of the class [Unicode].
    - Reads that the program makes of its environment (the wall clock, the
      pages fetched, the iteration order of a Go map, the scores returned by
      the similarity library) are explicit inputs. *)

From Stdlib Require Import ZArith QArith Qabs Lia Lqa Ascii String List Permutation.
From stdpp Require Import gmap strings list fin_maps.

Local Open Scope Z_scope.

(* ===================================================================== *)
(** * Go's standard library *)
(* ===================================================================== *)

Definition byte_val (c : ascii) : Z := Z.of_N (N_of_ascii c).
Definition byte_of (z : Z) : ascii := ascii_of_N (Z.to_N z).

(** What Go computes with the Unicode tables on strings that hold a byte
    outside ASCII.  Every member is the Go expression named in its comment,
    restricted to the strings on which the ASCII fast path does not apply. *)
Class Unicode := {
  (** [strings.Map(unicode.ToLower, s)] *)
  unicode_ToLower : string → string;
  (** [strings.Title(s)] *)
  unicode_Title : string → string;
  (** [strings.TrimFunc(s, unicode.IsSpace)] *)
  unicode_TrimSpace : string → string;
  (** [strings.TrimRightFunc(s, unicode.IsSpace)] *)
  unicode_TrimRightSpace : string → string;
  (** [strings.FieldsFunc(s, unicode.IsSpace)] *)
  unicode_Fields : string → list string
}.

Module strings.

(** [c >= utf8.RuneSelf] is [negb (isASCIIByte c)]. *)
Definition isASCIIByte (c : ascii) : bool := byte_val c <? 128.

Fixpoint isASCII (s : string) : bool :=
  match s with
  | EmptyString => true
  | String c s' => isASCIIByte c && isASCII s'
  end.

Definition isUpperByte (c : ascii) : bool :=
  (65 <=? byte_val c) && (byte_val c <=? 90).
Definition isLowerByte (c : ascii) : bool :=
  (97 <=? byte_val c) && (byte_val c <=? 122).
Definition isDigitByte (c : ascii) : bool :=
  (48 <=? byte_val c) && (byte_val c <=? 57).

Definition lowerByte (c : ascii) : ascii :=
  if isUpperByte c then byte_of (byte_val c + 32) else c.
Definition upperByte (c : ascii) : ascii :=
  if isLowerByte c then byte_of (byte_val c - 32) else c.

Fixpoint mapBytes (f : ascii → ascii) (s : string) : string :=
  match s with
  | EmptyString => EmptyString
  | String c s' => String (f c) (mapBytes f s')
  end.

(** [strings.ToLower]: the ASCII fast path, else the Unicode mapping. *)
Definition ToLower `{Unicode} (s : string) : string :=
  if isASCII s then mapBytes lowerByte s else unicode_ToLower s.

(** [asciiSpace]: tab, newline, vertical tab, form feed, return, space. *)
Definition asciiSpace (c : ascii) : bool :=
  let v := byte_val c in
  (v =? 9) || (v =? 10) || (v =? 11) || (v =? 12) || (v =? 13) || (v =? 32).

Fixpoint rev_acc (s acc : string) : string :=
  match s with
  | EmptyString => acc
  | String c s' => rev_acc s' (String c acc)
  end.
Definition rev (s : string) : string := rev_acc s EmptyString.

(** Second loop of [strings.TrimSpace], run on the reversed remainder:
    drops ASCII space from the end; at a non-ASCII byte it hands the
    remainder (in its original direction) to [TrimRightFunc]. *)
Fixpoint trimRight `{Unicode} (r : string) : string :=
  match r with
  | EmptyString => EmptyString
  | String c r' =>
      if negb (isASCIIByte c) then unicode_TrimRightSpace (rev r)
      else if asciiSpace c then trimRight r'
      else rev r
  end.

(** [strings.TrimSpace]: first loop drops ASCII space from the start; at a
    non-ASCII byte the rest goes to [TrimFunc]. *)
Fixpoint TrimSpace `{Unicode} (s : string) : string :=
  match s with
  | EmptyString => EmptyString
  | String c s' =>
      if negb (isASCIIByte c) then unicode_TrimSpace s
      else if asciiSpace c then TrimSpace s'
      else trimRight (rev s)
  end.

(** [isSeparator] of strings.Title on an ASCII rune: letters, digits and
    the underscore are not separators. *)
Definition isSeparator (c : ascii) : bool :=
  negb (isDigitByte c || isLowerByte c || isUpperByte c || (byte_val c =? 95)).

Fixpoint titleFrom (prev : ascii) (s : string) : string :=
  match s with
  | EmptyString => EmptyString
  | String c s' =>
      String (if isSeparator prev then upperByte c else c) (titleFrom c s')
  end.

(** [strings.Title]: the letter that begins each word is mapped to its
    title case; [prev] starts as a space. *)
Definition Title `{Unicode} (s : string) : string :=
  if isASCII s then titleFrom " "%char s else unicode_Title s.

Fixpoint HasPrefix (s prefix : string) : bool :=
  match prefix, s with
  | EmptyString, _ => true
  | String p prefix', String c s' => (Ascii.eqb c p) && HasPrefix s' prefix'
  | String _ _, EmptyString => false
  end.

(** [strings.Contains(s, substr)]: [substr] occurs in [s] as a run of
    bytes. *)
Fixpoint Contains (s substr : string) : bool :=
  HasPrefix s substr ||
  match s with
  | EmptyString => false
  | String _ s' => Contains s' substr
  end.

(** [strings.Split(s, sep)] for a non-empty [sep]: cut at each occurrence
    found by a left-to-right search that resumes after the occurrence.
    [skip] counts the bytes of an occurrence still to pass over, [cur] is
    the current piece, reversed. *)
Fixpoint splitFrom (sep : string) (skip : nat) (cur : string) (s : string)
  : list string :=
  match s with
  | EmptyString => [rev cur]
  | String c s' =>
      match skip with
      | S k => splitFrom sep k cur s'
      | O =>
          if HasPrefix s sep
          then rev cur :: splitFrom sep (Nat.pred (String.length sep)) EmptyString s'
          else splitFrom sep O (String c cur) s'
      end
  end.
Definition Split (s sep : string) : list string := splitFrom sep O EmptyString s.

(** [strings.Fields]: pieces between runs of ASCII space when [s] is
    ASCII, else [FieldsFunc(s, unicode.IsSpace)]. *)
Fixpoint fieldsFrom (cur : string) (s : string) : list string :=
  match s with
  | EmptyString =>
      match cur with EmptyString => [] | _ => [rev cur] end
  | String c s' =>
      if asciiSpace c
      then match cur with
           | EmptyString => fieldsFrom EmptyString s'
           | _ => rev cur :: fieldsFrom EmptyString s'
           end
      else fieldsFrom (String c cur) s'
  end.
Definition Fields `{Unicode} (s : string) : list string :=
  if isASCII s then fieldsFrom EmptyString s else unicode_Fields s.

End strings.

Module utf8.

(** A rune is a Unicode code point. *)
Definition rune := Z.
Definition RuneError : rune := 65533.

Definition inRange (lo hi b : Z) : bool := (lo <=? b) && (b <=? hi).
Definition cont (b : Z) : Z := Z.land b 63.

(** [utf8.DecodeRuneInString]: the rune that starts [bs] and its width in
    bytes; an invalid or short sequence is [RuneError] of width 1.  The
    bounds on the second byte are those of Go's [acceptRanges]. *)
Definition DecodeRune (bs : list Z) : rune * nat :=
  match bs with
  | [] => (RuneError, 0%nat)
  | b0 :: t =>
      if b0 <? 128 then (b0, 1%nat)
      else if inRange 194 223 b0 then
        match t with
        | b1 :: _ =>
            if inRange 128 191 b1
            then (Z.lor (Z.shiftl (Z.land b0 31) 6) (cont b1), 2%nat)
            else (RuneError, 1%nat)
        | _ => (RuneError, 1%nat)
        end
      else if inRange 224 239 b0 then
        match t with
        | b1 :: b2 :: _ =>
            let lo := if b0 =? 224 then 160 else 128 in
            let hi := if b0 =? 237 then 159 else 191 in
            if inRange lo hi b1 && inRange 128 191 b2
            then (Z.lor (Z.shiftl (Z.land b0 15) 12)
                    (Z.lor (Z.shiftl (cont b1) 6) (cont b2)), 3%nat)
            else (RuneError, 1%nat)
        | _ => (RuneError, 1%nat)
        end
      else if inRange 240 244 b0 then
        match t with
        | b1 :: b2 :: b3 :: _ =>
            let lo := if b0 =? 240 then 144 else 128 in
            let hi := if b0 =? 244 then 143 else 191 in
            if inRange lo hi b1 && inRange 128 191 b2 && inRange 128 191 b3
            then (Z.lor (Z.shiftl (Z.land b0 7) 18)
                    (Z.lor (Z.shiftl (cont b1) 12)
                       (Z.lor (Z.shiftl (cont b2) 6) (cont b3))), 4%nat)
            else (RuneError, 1%nat)
        | _ => (RuneError, 1%nat)
        end
      else (RuneError, 1%nat)
  end.

(** The conversion [[]rune(s)]: decode rune after rune.  [skip] counts the
    bytes of the current rune still to pass over. *)
Fixpoint runesFrom (skip : nat) (bs : list Z) : list rune :=
  match bs with
  | [] => []
  | _ :: t =>
      match skip with
      | S k => runesFrom k t
      | O => let '(r, w) := DecodeRune bs in r :: runesFrom (Nat.pred w) t
      end
  end.

Fixpoint bytes (s : string) : list Z :=
  match s with
  | EmptyString => []
  | String c s' => byte_val c :: bytes s'
  end.

Definition runes (s : string) : list rune := runesFrom O (bytes s).

End utf8.

Module regexp.

(** The fragment of RE2 syntax that the three patterns of the normalizer
    use: literals, [\b], concatenation, alternation and the greedy [?]. *)
Inductive re : Type :=
| Lit (s : string)
| WordBoundary
| Cat (a b : re)
| Alt (a b : re)
| Quest (a : re).

(** [\w] of RE2 is ASCII: digits, letters and the underscore. *)
Definition isWordByte (c : ascii) : bool :=
  strings.isDigitByte c || strings.isLowerByte c || strings.isUpperByte c
  || (byte_val c =? 95).
Definition isWord (o : option ascii) : bool :=
  match o with Some c => isWordByte c | None => false end.
Definition head (s : string) : option ascii :=
  match s with EmptyString => None | String c _ => Some c end.

(** Consume the literal [l] at the start of [s]; returns the last byte
    consumed (or [prev]) and the rest. *)
Fixpoint lit (l : string) (prev : option ascii) (s : string)
  : option (option ascii * string) :=
  match l with
  | EmptyString => Some (prev, s)
  | String a l' =>
      match s with
      | String c s' => if Ascii.eqb a c then lit l' (Some c) s' else None
      | EmptyString => None
      end
  end.

(** Backtracking match of [r] at the start of [s], where [prev] is the
    byte before [s] in the text; [k] is what must match afterwards.  The
    first alternative that leads to success wins (leftmost-first, the
    semantics of Go's regexp), and [?] prefers to take its operand. *)
Fixpoint matchAt {A} (r : re) (prev : option ascii) (s : string)
    (k : option ascii → string → option A) : option A :=
  match r with
  | Lit l =>
      match lit l prev s with
      | Some (p, s') => k p s'
      | None => None
      end
  | WordBoundary =>
      if xorb (isWord prev) (isWord (head s)) then k prev s else None
  | Cat a b => matchAt a prev s (fun p s' => matchAt b p s' k)
  | Alt a b =>
      match matchAt a prev s k with
      | Some x => Some x
      | None => matchAt b prev s k
      end
  | Quest a =>
      match matchAt a prev s k with
      | Some x => Some x
      | None => k prev s
      end
  end.

(** The least number of bytes that a match of [r] takes. *)
Fixpoint minLen (r : re) : nat :=
  match r with
  | Lit l => String.length l
  | WordBoundary => O
  | Cat a b => (minLen a + minLen b)%nat
  | Alt a b => Nat.min (minLen a) (minLen b)
  | Quest _ => O
  end.

(** The text left after the match of [r] at the start of [s], if any. *)
Definition matchPrefix (r : re) (prev : option ascii) (s : string)
  : option string :=
  matchAt r prev s (fun _ rest => Some rest).

(** [ReplaceAllString] for a pattern that cannot match the empty string
    ([minLen] is positive) and a replacement without [$]: scan from the
    left; at a match write [repl] and resume after it, else copy one byte.
    [skip] counts the bytes of the current match still to pass over. *)
Fixpoint replaceFrom (r : re) (repl : string) (skip : nat)
    (prev : option ascii) (s : string) : string :=
  match s with
  | EmptyString => EmptyString
  | String c s' =>
      match skip with
      | S k => replaceFrom r repl k (Some c) s'
      | O =>
          match matchPrefix r prev s with
          | Some rest =>
              let n := (String.length s - String.length rest)%nat in
              match n with
              | O => String c (replaceFrom r repl O (Some c) s')
              | S k => repl +:+ replaceFrom r repl k (Some c) s'
              end
          | None => String c (replaceFrom r repl O (Some c) s')
          end
      end
  end.

Definition ReplaceAllString (r : re) (src repl : string) : string :=
  replaceFrom r repl O None src.

End regexp.

Module time.

(** A [time.Time]: the calendar date and clock reading in the zone of the
    value, and the offset of that zone east of UTC in seconds.  [Month]
    is 1 for January. *)
Record Time : Type := mkTime {
  Year : Z; Month : Z; Day : Z;
  Hour : Z; Minute : Z; Second : Z; Nanosecond : Z;
  zoneOffset : Z
}.

Definition isLeap (year : Z) : bool :=
  (year mod 4 =? 0) && (negb (year mod 100 =? 0) || (year mod 400 =? 0)).

Definition daysIn (m year : Z) : Z :=
  if (m =? 2) && isLeap year then 29
  else if m =? 2 then 28
  else if (m =? 4) || (m =? 6) || (m =? 9) || (m =? 11) then 30
  else 31.

(** Days from 1970-01-01 to the given date of the proleptic Gregorian
    calendar. *)
Definition daysSinceEpoch (y m d : Z) : Z :=
  let y' := if m <=? 2 then y - 1 else y in
  let era := y' / 400 in
  let yoe := y' - era * 400 in
  let doy := (153 * (if 2 <? m then m - 3 else m + 9) + 2) / 5 + d - 1 in
  let doe := yoe * 365 + yoe / 4 - yoe / 100 + doy in
  era * 146097 + doe - 719468.

(** [t.UnixNano()], unbounded: the instant that [t] denotes. *)
Definition UnixNano (t : Time) : Z :=
  (daysSinceEpoch (Year t) (Month t) (Day t) * 86400
   + Hour t * 3600 + Minute t * 60 + Second t - zoneOffset t) * 1000000000
  + Nanosecond t.

Definition After (t u : Time) : bool := UnixNano u <? UnixNano t.
Definition Before (t u : Time) : bool := UnixNano t <? UnixNano u.
Definition Equal (t u : Time) : bool := UnixNano t =? UnixNano u.

(** [t.AddDate(years, 0, 0)], the only form the program uses: the year is
    shifted and the date normalized, which turns 29 February of a year
    that is not a leap year into 1 March. *)
Definition AddDate (t : Time) (years : Z) : Time :=
  let y := Year t + years in
  if (Month t =? 2) && (Day t =? 29) && negb (isLeap y)
  then mkTime y 3 1 (Hour t) (Minute t) (Second t) (Nanosecond t) (zoneOffset t)
  else mkTime y (Month t) (Day t) (Hour t) (Minute t) (Second t)
         (Nanosecond t) (zoneOffset t).

(** ** Layouts *)

(** The elements of a layout that the program's layouts contain, under
    the names of Go's [nextStdChunk]: ["02"], ["Jan"], ["Mon"], ["3"],
    ["04"], ["pm"], ["2006"], ["01"]. *)
Inductive std : Type :=
| stdZeroDay | stdMonth | stdWeekDay | stdHour12 | stdZeroMinute | stdpm
| stdLongYear | stdZeroMonth.

(** A layout, cut the way [nextStdChunk] cuts it: literal text and
    elements. *)
Inductive chunk : Type :=
| Text (s : string)
| Std (e : std).

Definition Layout := list chunk.

Fixpoint cutspace (s : string) : string :=
  match s with
  | String " " s' => cutspace s'
  | _ => s
  end.

(** [skip(value, prefix)]: the literal text of the layout must lead the
    value; a run of spaces in the layout matches any run of spaces (also
    none at the end of the value). [fuel] bounds the loop by the length of
    the prefix. *)
Fixpoint skipFuel (fuel : nat) (value prefix : string) : option string :=
  match prefix with
  | EmptyString => Some value
  | String p prefix' =>
      match fuel with
      | O => None
      | S fuel' =>
          if Ascii.eqb p " " then
            match value with
            | String c _ =>
                if Ascii.eqb c " "
                then skipFuel fuel' (cutspace value) (cutspace prefix)
                else None
            | EmptyString => skipFuel fuel' (cutspace value) (cutspace prefix)
            end
          else
            match value with
            | String c value' =>
                if Ascii.eqb c p then skipFuel fuel' value' prefix' else None
            | EmptyString => None
            end
      end
  end.
Definition skip (value prefix : string) : option string :=
  skipFuel (String.length prefix) value prefix.

Definition digit (c : ascii) : Z := byte_val c - 48.

(** [getnum(s, fixed)]: one or two digits; two are required when
    [fixed]. *)
Definition getnum (s : string) (fixed : bool) : option (Z * string) :=
  match s with
  | String c0 s0 =>
      if strings.isDigitByte c0 then
        match s0 with
        | String c1 s1 =>
            if strings.isDigitByte c1
            then Some (digit c0 * 10 + digit c1, s1)
            else if fixed then None else Some (digit c0, s0)
        | EmptyString => if fixed then None else Some (digit c0, s0)
        end
      else None
  | EmptyString => None
  end.

(** [match(s1, s2)] of package time on one byte: equal, or equal letters
    up to case. *)
Definition matchByte (c1 c2 : ascii) : bool :=
  Ascii.eqb c1 c2 ||
  (let l1 := Z.lor (byte_val c1) 32 in
   let l2 := Z.lor (byte_val c2) 32 in
   (l1 =? l2) && (97 <=? l1) && (l1 <=? 122)).

(** [v] leads [val] up to case; returns the rest of [val]. *)
Fixpoint matchName (val v : string) : option string :=
  match v with
  | EmptyString => Some val
  | String b v' =>
      match val with
      | String a val' => if matchByte a b then matchName val' v' else None
      | EmptyString => None
      end
  end.

(** [lookup(tab, val)]: index of the first name of [tab] that leads
    [val]. *)
Fixpoint lookup (tab : list string) (i : Z) (val : string)
  : option (Z * string) :=
  match tab with
  | [] => None
  | v :: tab' =>
      match matchName val v with
      | Some rest => Some (i, rest)
      | None => lookup tab' (i + 1) val
      end
  end.

Definition shortMonthNames : list string :=
  ["Jan"; "Feb"; "Mar"; "Apr"; "May"; "Jun";
   "Jul"; "Aug"; "Sep"; "Oct"; "Nov"; "Dec"].
Definition shortDayNames : list string :=
  ["Sun"; "Mon"; "Tue"; "Wed"; "Thu"; "Fri"; "Sat"].

(** The variables of [parse]: the fields read so far. Month and day start
    at -1, "not seen". *)
Record fields : Type := mkFields {
  f_year : Z; f_month : Z; f_day : Z; f_hour : Z; f_min : Z;
  f_pmSet : bool; f_amSet : bool
}.
Definition fields0 : fields := mkFields 0 (-1) (-1) 0 0 false false.

(** Four digits, as [atoi(value[0:4])] accepts them after [isDigit(value, 0)]. *)
Definition fourDigits (s : string) : option (Z * string) :=
  match s with
  | String a (String b (String c (String d rest))) =>
      if strings.isDigitByte a && strings.isDigitByte b
         && strings.isDigitByte c && strings.isDigitByte d
      then Some (((digit a * 10 + digit b) * 10 + digit c) * 10 + digit d, rest)
      else None
  | _ => None
  end.

(** One case of the [switch std & stdMask] of [parse]. *)
Definition parseStd (e : std) (f : fields) (value : string)
  : option (fields * string) :=
  match e with
  | stdZeroDay =>
      match getnum value true with
      | Some (d, rest) =>
          Some (mkFields (f_year f) (f_month f) d (f_hour f) (f_min f)
                  (f_pmSet f) (f_amSet f), rest)
      | None => None
      end
  | stdMonth =>
      match lookup shortMonthNames 0 value with
      | Some (m, rest) =>
          Some (mkFields (f_year f) (m + 1) (f_day f) (f_hour f) (f_min f)
                  (f_pmSet f) (f_amSet f), rest)
      | None => None
      end
  | stdWeekDay =>
      match lookup shortDayNames 0 value with
      | Some (_, rest) => Some (f, rest)
      | None => None
      end
  | stdHour12 =>
      match getnum value false with
      | Some (h, rest) =>
          if (h <? 0) || (12 <? h) then None
          else Some (mkFields (f_year f) (f_month f) (f_day f) h (f_min f)
                       (f_pmSet f) (f_amSet f), rest)
      | None => None
      end
  | stdZeroMinute =>
      match getnum value true with
      | Some (m, rest) =>
          if (m <? 0) || (60 <=? m) then None
          else Some (mkFields (f_year f) (f_month f) (f_day f) (f_hour f) m
                       (f_pmSet f) (f_amSet f), rest)
      | None => None
      end
  | stdpm =>
      match value with
      | String a (String b rest) =>
          if String.eqb (String a (String b EmptyString)) "pm"
          then Some (mkFields (f_year f) (f_month f) (f_day f) (f_hour f)
                       (f_min f) true (f_amSet f), rest)
          else if String.eqb (String a (String b EmptyString)) "am"
          then Some (mkFields (f_year f) (f_month f) (f_day f) (f_hour f)
                       (f_min f) (f_pmSet f) true, rest)
          else None
      | _ => None
      end
  | stdLongYear =>
      match fourDigits value with
      | Some (y, rest) =>
          Some (mkFields y (f_month f) (f_day f) (f_hour f) (f_min f)
                  (f_pmSet f) (f_amSet f), rest)
      | None => None
      end
  | stdZeroMonth =>
      match getnum value true with
      | Some (m, rest) =>
          if (m <=? 0) || (12 <? m) then None
          else Some (mkFields (f_year f) m (f_day f) (f_hour f) (f_min f)
                       (f_pmSet f) (f_amSet f), rest)
      | None => None
      end
  end.

(** The loop of [parse] over the layout; at its end no text may be left
    ("extra text"). *)
Fixpoint parseChunks (layout : Layout) (f : fields) (value : string)
  : option fields :=
  match layout with
  | [] => match value with EmptyString => Some f | _ => None end
  | Text p :: layout' =>
      match skip value p with
      | Some rest => parseChunks layout' f rest
      | None => None
      end
  | Std e :: layout' =>
      match parseStd e f value with
      | Some (f', rest) => parseChunks layout' f' rest
      | None => None
      end
  end.

(** What follows the loop: the 12-hour clock is resolved, a month or day
    not seen is 1, the day must exist in the month, and the time is in
    UTC. *)
Definition finish (f : fields) : option Time :=
  let hour :=
    if f_pmSet f && (f_hour f <? 12) then f_hour f + 12
    else if f_amSet f && (f_hour f =? 12) then 0
    else f_hour f in
  let month := if f_month f <? 0 then 1 else f_month f in
  let day := if f_day f <? 0 then 1 else f_day f in
  if (day <? 1) || (daysIn month (f_year f) <? day) then None
  else Some (mkTime (f_year f) month day hour (f_min f) 0 0 0).

(** [time.Parse(layout, value)]; [None] is a non-nil error. *)
Definition Parse (layout : Layout) (value : string) : option Time :=
  match parseChunks layout fields0 value with
  | Some f => finish f
  | None => None
  end.

End time.

(* ===================================================================== *)
(** * github.com/hbollon/go-edlib *)
(* ===================================================================== *)

Definition Qlt_bool (x y : Q) : bool := negb (Qle_bool y x).

Module edlib.

(** The three algorithms that the normalizer asks for. *)
Inductive Algorithm : Type := Levenshtein | Jaro | JaroWinkler.

(** The measures of the library in exact arithmetic, on runes.  The
    library computes them in [float32]; see [Edlib] below. *)

Definition frac (a b : Z) : Q := Qmake a (Z.to_pos b).
Definition len (l : list utf8.rune) : Z := Z.of_nat (length l).

Fixpoint runesEqual (a b : list utf8.rune) : bool :=
  match a, b with
  | [], [] => true
  | x :: a', y :: b' => (x =? y) && runesEqual a' b'
  | _, _ => false
  end.

(** One pass of the inner loop of [LevenshteinDistance] over [column]:
    [old] is the previous column from index [y], [lastkey] its entry at
    [y-1], [left] the new entry at [y-1]. *)
Fixpoint levColumn (c2 : utf8.rune) (s1 : list utf8.rune) (old : list Z)
    (lastkey left : Z) : list Z :=
  match s1, old with
  | c1 :: s1', o :: old' =>
      let v := Z.min (Z.min (o + 1) (left + 1))
                 (lastkey + (if c1 =? c2 then 0 else 1)) in
      v :: levColumn c2 s1' old' o v
  | _, _ => []
  end.

Fixpoint levRows (s1 s2 : list utf8.rune) (x : Z) (column : list Z) : list Z :=
  match s2 with
  | [] => column
  | c2 :: s2' => levRows s1 s2' (x + 1) (levColumn c2 s1 column (x - 1) x)
  end.

Definition LevenshteinDistance (str1 str2 : string) : Z :=
  let r1 := utf8.runes str1 in
  let r2 := utf8.runes str2 in
  if len r1 =? 0 then len r2
  else if len r2 =? 0 then len r1
  else if runesEqual r1 r2 then 0
  else List.last (levRows r1 r2 1 (List.map Z.of_nat (seq 1 (length r1)))) 0.

(** [matchingIndex]: the share of the longer string that is not edited. *)
Definition matchingIndex (str1 str2 : string) (distance : Z) : Q :=
  let l1 := len (utf8.runes str1) in
  let l2 := len (utf8.runes str2) in
  if l2 <=? l1 then frac (l1 - distance) l1 else frac (l2 - distance) l2.

(** First index [j] of [s2], with [lo <= j < hi], that holds [c] and is
    not yet matched in [t2]; the table with that index marked. *)
Fixpoint markFirst (c : utf8.rune) (lo hi j : Z) (s2 : list utf8.rune)
    (t2 : list bool) : option (list bool) :=
  match s2, t2 with
  | c2 :: s2', m :: t2' =>
      if (lo <=? j) && (j <? hi) && (c =? c2) && negb m
      then Some (true :: t2')
      else match markFirst c lo hi (j + 1) s2' t2' with
           | Some t => Some (m :: t)
           | None => None
           end
  | _, _ => None
  end.

(** The matching loop of [JaroSimilarity]: the table of [s1] and the final
    table of [s2]. *)
Fixpoint jaroMatch (maxDist : Z) (i : Z) (s1 s2 : list utf8.rune)
    (t2 : list bool) : list bool * list bool :=
  match s1 with
  | [] => ([], t2)
  | c :: s1' =>
      let lo := Z.max 0 (i - maxDist) in
      let hi := Z.min (len s2) (i + maxDist + 1) in
      match markFirst c lo hi 0 s2 t2 with
      | Some t2' =>
          let '(t1, t2'') := jaroMatch maxDist (i + 1) s1' s2 t2' in
          (true :: t1, t2'')
      | None =>
          let '(t1, t2'') := jaroMatch maxDist (i + 1) s1' s2 t2 in
          (false :: t1, t2'')
      end
  end.

Fixpoint marked (s : list utf8.rune) (t : list bool) : list utf8.rune :=
  match s, t with
  | c :: s', true :: t' => c :: marked s' t'
  | _ :: s', false :: t' => marked s' t'
  | _, _ => []
  end.

(** Matched runes of the two strings, taken in order, that differ. *)
Fixpoint mismatches (a b : list utf8.rune) : Z :=
  match a, b with
  | x :: a', y :: b' => (if x =? y then 0 else 1) + mismatches a' b'
  | _, _ => 0
  end.

Definition JaroSimilarity (str1 str2 : string) : Q :=
  let r1 := utf8.runes str1 in
  let r2 := utf8.runes str2 in
  if (len r1 =? 0) || (len r2 =? 0) then 0%Q
  else if runesEqual r1 r2 then 1%Q
  else
    let maxDist := Z.max (len r1) (len r2) / 2 - 1 in
    let '(t1, t2) := jaroMatch maxDist 0 r1 r2 (List.map (fun _ => false) r2) in
    let m := len (marked r1 t1) in
    if m =? 0 then 0%Q
    else
      let t := frac (mismatches (marked r1 t1) (marked r2 t2)) 2 in
      ((frac m (len r1) + frac m (len r2) + (inject_Z m - t) / inject_Z m)
       / inject_Z 3)%Q.

Fixpoint commonPrefix (a b : list utf8.rune) : Z :=
  match a, b with
  | x :: a', y :: b' => if x =? y then 1 + commonPrefix a' b' else 0
  | _, _ => 0
  end.

Definition JaroWinklerSimilarity (str1 str2 : string) : Q :=
  let jaroSim := JaroSimilarity str1 str2 in
  if negb (Qeq_bool jaroSim 0) && negb (Qeq_bool jaroSim 1) then
    let prefix := Z.min (commonPrefix (utf8.runes str1) (utf8.runes str2)) 4 in
    (jaroSim + frac 1 10 * inject_Z prefix * (1 - jaroSim))%Q
  else jaroSim.

(** [StringsSimilarity(str1, str2, algo)] in exact arithmetic. *)
Definition exactSimilarity (str1 str2 : string) (algo : Algorithm) : Q :=
  match algo with
  | Levenshtein => matchingIndex str1 str2 (LevenshteinDistance str1 str2)
  | Jaro => JaroSimilarity str1 str2
  | JaroWinkler => JaroWinklerSimilarity str1 str2
  end.

End edlib.

(** The scores that [edlib.StringsSimilarity] returns to the program: the
    [float32] results, which are rational numbers. (The library divides by
    the lengths of the strings; its result is a number when one of the two
    strings is not empty, as every key of the alias table is.)  The general
    results below hold for every such function; the results on particular
    names assume [edlib_accurate]: against a string that is not empty, the
    value returned is within a hundredth of the exact measure. *)
Class Edlib := {
  StringsSimilarity : string → string → edlib.Algorithm → Q
}.


(* ===================================================================== *)
(** * Package scraper: types.go *)
(* ===================================================================== *)

Definition error := string.

Record TicketEvent : Type := mkTicketEvent {
  DateTime : string;
  Event : string;
  Link : string;
  Source : string
}.

(** The field [Source] of the Go struct is [ResultSource] here: the fields
    of all records share one name space. [Total] is a Go [int]. *)
Record ScrapingResult : Type := mkScrapingResult {
  Events : list TicketEvent;
  Total : Z;
  Timestamp : time.Time;
  SourceURL : string;
  ResultSource : string
}.

(** [len(s)] of a slice. *)
Definition len {A} (l : list A) : Z := Z.of_nat (length l).

(* ===================================================================== *)
(** * Package scraper: the team-name normalizer *)
(* ===================================================================== *)

Record TeamNameNormalizer : Type := mkTeamNameNormalizer {
  teamMappings : gmap string string;
  similarityThreshold : Q
}.

(** The literal of [getStandardTeamMappings], in the order it is written. *)
Definition standardTeamAliases : list (string * string) :=
  [ ("real madrid", "Real Madrid");
    ("real madrid cf", "Real Madrid");
    ("real madrid club de fútbol", "Real Madrid");
    ("rm", "Real Madrid");
    ("madrid", "Real Madrid");
    ("barcelona", "Barcelona");
    ("fc barcelona", "Barcelona");
    ("barça", "Barcelona");
    ("barca", "Barcelona");
    ("fcb", "Barcelona");
    ("atletico madrid", "Atlético Madrid");
    ("atletico de madrid", "Atlético Madrid");
    ("atleti", "Atlético Madrid");
    ("atm", "Atlético Madrid");
    ("manchester united", "Manchester United");
    ("man utd", "Manchester United");
    ("manchester utd", "Manchester United");
    ("man u", "Manchester United");
    ("manchester united fc", "Manchester United");
    ("liverpool", "Liverpool");
    ("liverpool fc", "Liverpool");
    ("lfc", "Liverpool");
    ("juventus", "Juventus");
    ("juventus fc", "Juventus");
    ("juve", "Juventus");
    ("villarreal", "Villarreal");
    ("villarreal cf", "Villarreal");
    ("getafe", "Getafe");
    ("getafe cf", "Getafe");
    ("valencia", "Valencia");
    ("valencia cf", "Valencia");
    ("sevilla", "Sevilla");
    ("sevilla fc", "Sevilla");
    ("athletic bilbao", "Athletic Bilbao");
    ("athletic club", "Athletic Bilbao");
    ("real betis", "Real Betis");
    ("real sociedad", "Real Sociedad");
    ("rayo vallecano", "Rayo Vallecano");
    ("elche", "Elche");
    ("elche cf", "Elche");
    ("girona", "Girona");
    ("girona fc", "Girona");
    ("celta de vigo", "Celta de Vigo");
    ("celta vigo", "Celta de Vigo");
    ("rc celta de vigo", "Celta de Vigo");
    ("deportivo alaves", "Deportivo Alavés");
    ("alaves", "Deportivo Alavés");
    ("ca osasuna", "CA Osasuna");
    ("osasuna", "CA Osasuna");
    ("levante ud", "Levante UD");
    ("levante", "Levante UD");
    ("mallorca", "Mallorca");
    ("rcd mallorca", "Mallorca");
    ("rcd espanyol", "RCD Espanyol");
    ("espanyol", "RCD Espanyol");
    ("oviedo", "Oviedo");
    ("real oviedo", "Oviedo");
    ("manchester city", "Manchester City");
    ("manchester city fc", "Manchester City");
    ("man city", "Manchester City");
    ("as monaco", "AS Monaco");
    ("monaco", "AS Monaco");
    ("sl benfica", "SL Benfica");
    ("benfica", "SL Benfica");
    ("olympiacos fc", "Olympiacos FC");
    ("olympiacos", "Olympiacos FC");
    ("kairat almaty", "Kairat Almaty");
    ("kairat almaty fc", "Kairat Almaty") ].

Definition getStandardTeamMappings : gmap string string :=
  list_to_map standardTeamAliases.

(** The constant [0.7] of type [float64]: the double nearest to 7/10. *)
Definition float64_0_7 : Q := Qmake 3152519739159347 4503599627370496.

Definition NewTeamNameNormalizer : TeamNameNormalizer :=
  {| teamMappings := getStandardTeamMappings;
     similarityThreshold := float64_0_7 |}.

(** [\bvs\.?\b] *)
Definition vsPattern : regexp.re :=
  regexp.Cat regexp.WordBoundary
    (regexp.Cat (regexp.Lit "vs")
       (regexp.Cat (regexp.Quest (regexp.Lit ".")) regexp.WordBoundary)).

(** [\bv\b] *)
Definition vPattern : regexp.re :=
  regexp.Cat regexp.WordBoundary (regexp.Cat (regexp.Lit "v") regexp.WordBoundary).

(** [\b(fc|cf|ud|club|de fútbol|de futbol)\b] *)
Definition suffixPattern : regexp.re :=
  regexp.Cat regexp.WordBoundary
    (regexp.Cat
       (regexp.Alt (regexp.Lit "fc")
          (regexp.Alt (regexp.Lit "cf")
             (regexp.Alt (regexp.Lit "ud")
                (regexp.Alt (regexp.Lit "club")
                   (regexp.Alt (regexp.Lit "de fútbol") (regexp.Lit "de futbol"))))))
       regexp.WordBoundary).

Section Normalizer.
Context `{Unicode} `{Edlib}.

(** The value of [maxScore] in the body of the loop of
    [findBestSimilarTeam]: the three scores of one key, and the best of
    them. *)
Definition maxScore (teamName mappedTeam : string) : Q :=
  let levenshteinScore := StringsSimilarity teamName mappedTeam edlib.Levenshtein in
  let jaroScore := StringsSimilarity teamName mappedTeam edlib.Jaro in
  let jaroWinklerScore := StringsSimilarity teamName mappedTeam edlib.JaroWinkler in
  let maxScore := levenshteinScore in
  let maxScore := if Qlt_bool maxScore jaroScore then jaroScore else maxScore in
  let maxScore := if Qlt_bool maxScore jaroWinklerScore then jaroWinklerScore else maxScore in
  maxScore.

(** The body of the loop for one key of the map, on the variables
    [bestMatch] and [bestScore]. *)
Definition scoreStep (n : TeamNameNormalizer) (teamName mappedTeam : string)
    (best : string * Q) : string * Q :=
  let maxScore := maxScore teamName mappedTeam in
  if Qlt_bool (snd best) maxScore && Qle_bool (similarityThreshold n) maxScore
  then (default "" (teamMappings n !! mappedTeam), maxScore)
  else best.

(** [for mappedTeam := range n.teamMappings]: Go leaves the order of the
    keys open, so the order met by this call is the input [order]. *)
Fixpoint scoreLoop (n : TeamNameNormalizer) (teamName : string)
    (order : list string) (best : string * Q) : string * Q :=
  match order with
  | [] => best
  | mappedTeam :: order' =>
      scoreLoop n teamName order' (scoreStep n teamName mappedTeam best)
  end.

Definition findBestSimilarTeam (n : TeamNameNormalizer) (order : list string)
    (teamName : string) : string :=
  let '(bestMatch, bestScore) := scoreLoop n teamName order ("", 0%Q) in
  if Qle_bool (similarityThreshold n) bestScore then bestMatch else "".

Definition normalizeTeamName (n : TeamNameNormalizer) (order : list string)
    (teamName : string) : string :=
  let cleaned := strings.TrimSpace (strings.ToLower teamName) in
  let cleaned := regexp.ReplaceAllString suffixPattern cleaned "" in
  let cleaned := strings.TrimSpace cleaned in
  match teamMappings n !! cleaned with
  | Some normalized => normalized
  | None =>
      let bestMatch := findBestSimilarTeam n order cleaned in
      if negb (String.eqb bestMatch "") then bestMatch
      else strings.Title teamName
  end.

(** [orders] holds the key order met by the call for the home team and
    the one met by the call for the away team. *)
Definition normalizeEventName (n : TeamNameNormalizer)
    (orders : list string * list string) (eventName : string) : string :=
  let cleaned := strings.TrimSpace eventName in
  let cleaned := regexp.ReplaceAllString vsPattern cleaned "vs" in
  let cleaned := regexp.ReplaceAllString vPattern cleaned "vs" in
  match strings.Split cleaned "vs" with
  | [part0; part1] =>
      let homeTeam := strings.TrimSpace part0 in
      let awayTeam := strings.TrimSpace part1 in
      let normalizedHome := normalizeTeamName n (fst orders) homeTeam in
      let normalizedAway := normalizeTeamName n (snd orders) awayTeam in
      normalizedHome +:+ " vs " +:+ normalizedAway
  | _ => cleaned
  end.

Definition normalizeDateTime (n : TeamNameNormalizer) (dateTime : string)
  : string :=
  let cleaned := strings.TrimSpace dateTime in
  let cleaned := regexp.ReplaceAllString vsPattern cleaned "vs" in
  let cleaned := regexp.ReplaceAllString vPattern cleaned "vs" in
  cleaned.

Definition NormalizeEvent (n : TeamNameNormalizer)
    (orders : list string * list string) (event : TicketEvent) : TicketEvent :=
  {| DateTime := normalizeDateTime n (DateTime event);
     Event := normalizeEventName n orders (Event event);
     Link := Link event;
     Source := Source event |}.

Definition zeroTicketEvent : TicketEvent := mkTicketEvent "" "" "" "".

(** The loop [for i, event := range result.Events] storing into
    [normalized.Events[i]]; [orders i] are the key orders met while event
    [i] is normalized. *)
Fixpoint normalizeLoop (n : TeamNameNormalizer)
    (orders : nat → list string * list string) (i : nat)
    (events : list TicketEvent) (out : list TicketEvent) : list TicketEvent :=
  match events with
  | [] => out
  | event :: events' =>
      normalizeLoop n orders (S i) events'
        (<[i := NormalizeEvent n (orders i) event]> out)
  end.

Definition NormalizeScrapingResult (n : TeamNameNormalizer)
    (orders : nat → list string * list string) (result : ScrapingResult)
  : ScrapingResult :=
  {| Events := normalizeLoop n orders 0 (Events result)
                 (replicate (length (Events result)) zeroTicketEvent);
     Total := Total result;
     Timestamp := Timestamp result;
     SourceURL := SourceURL result;
     ResultSource := ResultSource result |}.

End Normalizer.

(* ===================================================================== *)
(** * Package scraper: formatter.go *)
(* ===================================================================== *)

(** What the formatter asks of the host: the JSON encoder, the tab writer
    and the file system. *)
Class Host := {
  (** [json.Marshal(r)], or [json.MarshalIndent(r, "", "  ")] when the flag
      is set *)
  json_Marshal : ScrapingResult → bool → string * option error;
  (** what a [tabwriter.Writer] with the settings of [FormatAsTable] has
      written after [Flush], given the text printed into it *)
  tabwriter_Flush : string → string;
  (** the error of [os.WriteFile(name, data, 0644)] *)
  os_WriteFile : string → string → option error
}.

Definition truncate (s : string) (maxLen : Z) : string :=
  if Z.of_nat (String.length s) <=? maxLen then s
  else String.substring 0 (Z.to_nat (maxLen - 3)) s +:+ "...".

(** The layouts of [parseEventDate], in the order of the slice [formats]. *)
Definition layoutDayMonthWeekdayTime : time.Layout :=   (* "02 Jan Mon 3:04pm" *)
  [time.Std time.stdZeroDay; time.Text " "; time.Std time.stdMonth; time.Text " ";
   time.Std time.stdWeekDay; time.Text " "; time.Std time.stdHour12; time.Text ":";
   time.Std time.stdZeroMinute; time.Std time.stdpm].
Definition layoutMonthDayWeekdayTime : time.Layout :=   (* "Jan 02 Mon 3:04pm" *)
  [time.Std time.stdMonth; time.Text " "; time.Std time.stdZeroDay; time.Text " ";
   time.Std time.stdWeekDay; time.Text " "; time.Std time.stdHour12; time.Text ":";
   time.Std time.stdZeroMinute; time.Std time.stdpm].
Definition layoutDayMonthYear : time.Layout :=          (* "02 Jan 2006" *)
  [time.Std time.stdZeroDay; time.Text " "; time.Std time.stdMonth; time.Text " ";
   time.Std time.stdLongYear].
Definition layoutMonthDayYear : time.Layout :=          (* "Jan 02 2006" *)
  [time.Std time.stdMonth; time.Text " "; time.Std time.stdZeroDay; time.Text " ";
   time.Std time.stdLongYear].
Definition layoutDayMonth : time.Layout :=              (* "02 Jan" *)
  [time.Std time.stdZeroDay; time.Text " "; time.Std time.stdMonth].
Definition layoutMonthDay : time.Layout :=              (* "Jan 02" *)
  [time.Std time.stdMonth; time.Text " "; time.Std time.stdZeroDay].
Definition layoutISODate : time.Layout :=               (* "2006-01-02" *)
  [time.Std time.stdLongYear; time.Text "-"; time.Std time.stdZeroMonth;
   time.Text "-"; time.Std time.stdZeroDay].
Definition layoutDaySlashMonthYear : time.Layout :=     (* "02/01/2006" *)
  [time.Std time.stdZeroDay; time.Text "/"; time.Std time.stdZeroMonth;
   time.Text "/"; time.Std time.stdLongYear].
Definition layoutMonthSlashDayYear : time.Layout :=     (* "01/02/2006" *)
  [time.Std time.stdZeroMonth; time.Text "/"; time.Std time.stdZeroDay;
   time.Text "/"; time.Std time.stdLongYear].

Definition formats : list time.Layout :=
  [ layoutDayMonthWeekdayTime; layoutMonthDayWeekdayTime;
    layoutDayMonthYear; layoutMonthDayYear;
    layoutDayMonth; layoutMonthDay;
    layoutISODate; layoutDaySlashMonthYear; layoutMonthSlashDayYear ].

(** The block [if t.Year() == 0 { ... }] of [parseEventDate]. *)
Definition inferYear (now t : time.Time) : time.Time :=
  if time.Year t =? 0 then
    if (time.Month t <? time.Month now)
       || ((time.Month t =? time.Month now) && (time.Day t <? time.Day now))
    then time.AddDate t (time.Year now + 1)
    else time.AddDate t (time.Year now)
  else t.

(** The loop [for _, format := range formats]. *)
Fixpoint tryFormats (now : time.Time) (fs : list time.Layout)
    (dateTimeStr : string) : option time.Time :=
  match fs with
  | [] => None
  | format :: fs' =>
      match time.Parse format dateTimeStr with
      | Some t => Some (inferYear now t)
      | None => tryFormats now fs' dateTimeStr
      end
  end.

(** [now] is the reading of [time.Now()] that the call makes. *)
Definition parseEventDate (now : time.Time) (dateTimeStr : string)
  : time.Time * option error :=
  match tryFormats now formats dateTimeStr with
  | Some t => (t, None)
  | None => (now, Some ("unable to parse date: " +:+ dateTimeStr))
  end.

Section Formatter.
Context `{Unicode} `{Host}.

Definition tableRow (event : TicketEvent) : string :=
  let eventName := truncate (Event event) 50 in
  let link := truncate (Link event) 60 in
  DateTime event +:+ String (byte_of 9) eventName +:+ String (byte_of 9) link
    +:+ String (byte_of 9) (Source event) +:+ String (byte_of 10) "".

Definition FormatAsTable (r : ScrapingResult) : string :=
  tabwriter_Flush
    ("DATETIME" +:+ String (byte_of 9) "EVENT" +:+ String (byte_of 9) "LINK"
       +:+ String (byte_of 9) "SOURCE" +:+ String (byte_of 10) ""
     +:+ "--------" +:+ String (byte_of 9) "-----" +:+ String (byte_of 9) "----"
       +:+ String (byte_of 9) "------" +:+ String (byte_of 10) ""
     +:+ foldr (fun event rows => tableRow event +:+ rows) "" (Events r)).

Definition FormatAsJSON (r : ScrapingResult) (indent : bool)
  : string * option error :=
  match json_Marshal r indent with
  | (_, Some err) => ("", Some ("failed to marshal JSON: " +:+ err))
  | (data, None) => (data, None)
  end.

(** A file written: its name and content. *)
Definition FileWrite : Type := string * string.

(** [SaveToFile] returns its error; the second component lists the calls
    of [os.WriteFile] that it made. *)
Definition SaveToFile (r : ScrapingResult) (filename format : string)
  : option error * list FileWrite :=
  let f := strings.ToLower format in
  if String.eqb f "json" then
    match FormatAsJSON r true with
    | (_, Some err) => (Some err, [])
    | (content, None) => (os_WriteFile filename content, [(filename, content)])
    end
  else if String.eqb f "table" || String.eqb f "txt" then
    let content := FormatAsTable r in
    (os_WriteFile filename content, [(filename, content)])
  else
    (Some ("unsupported format: " +:+ format +:+ " (supported: json, table, txt)"), []).

Definition keywordMatches (keywordLower : string) (event : TicketEvent) : bool :=
  strings.Contains (strings.ToLower (Event event)) keywordLower
  || strings.Contains (strings.ToLower (DateTime event)) keywordLower
  || strings.Contains (strings.ToLower (Source event)) keywordLower.

(** The loop of [FilterByKeyword] on [filtered.Events]. *)
Fixpoint keywordLoop (keywordLower : string) (events filtered : list TicketEvent)
  : list TicketEvent :=
  match events with
  | [] => filtered
  | event :: events' =>
      if keywordMatches keywordLower event
      then keywordLoop keywordLower events' (filtered ++ [event])
      else keywordLoop keywordLower events' filtered
  end.

Definition FilterByKeyword (r : ScrapingResult) (keyword : string)
  : ScrapingResult :=
  if String.eqb keyword "" then r
  else
    let keywordLower := strings.ToLower keyword in
    let events := keywordLoop keywordLower (Events r) [] in
    {| Events := events;
       Total := len events;
       Timestamp := Timestamp r;
       SourceURL := SourceURL r;
       ResultSource := ResultSource r |}.

End Formatter.

(** The loop of [FilterByDate] on [filtered.Events]; [clock i] is the
    reading of [time.Now()] made while the event of index [i] is parsed. *)
Fixpoint dateLoop (clock : nat → time.Time) (startDate endDate : time.Time)
    (i : nat) (events filtered : list TicketEvent) : list TicketEvent :=
  match events with
  | [] => filtered
  | event :: events' =>
      match parseEventDate (clock i) (DateTime event) with
      | (_, Some _) =>
          dateLoop clock startDate endDate (S i) events' (filtered ++ [event])
      | (eventDate, None) =>
          if (time.After eventDate startDate || time.Equal eventDate startDate)
             && (time.Before eventDate endDate || time.Equal eventDate endDate)
          then dateLoop clock startDate endDate (S i) events' (filtered ++ [event])
          else dateLoop clock startDate endDate (S i) events' filtered
      end
  end.

Definition FilterByDate (clock : nat → time.Time) (r : ScrapingResult)
    (startDate endDate : time.Time) : ScrapingResult :=
  let events := dateLoop clock startDate endDate 0 (Events r) [] in
  {| Events := events;
     Total := len events;
     Timestamp := Timestamp r;
     SourceURL := SourceURL r;
     ResultSource := ResultSource r |}.

(** What [GetSummary] asks of the libraries. *)
Class Fmt := {
  (** the verb [%d] of [fmt] on an [int] *)
  fmt_d : Z → string;
  (** [t.Format(layout)] *)
  time_Format : time.Time → string → string
}.

Definition newline : string := String (byte_of 10) "".

(** The loop [for i := 0; i < limit; i++] of [GetSummary] on the builder
    [sb], with [n] rounds to go. Indexing a slice out of its range panics:
    [None]. *)
Fixpoint sampleLoop (events : list TicketEvent) (i n : nat) (sb : string)
  : option string :=
  match n with
  | O => Some sb
  | S n' =>
      match events !! i with
      | None => None
      | Some event =>
          sampleLoop events (S i) n'
            (sb +:+ "- " +:+ DateTime event +:+ ": " +:+ Event event +:+ newline)
      end
  end.

Definition GetSummary `{Fmt} (r : ScrapingResult) : option string :=
  if len (Events r) =? 0 then Some "No events found"
  else
    let sb := "Scraping Summary:" +:+ newline in
    let sb := sb +:+ "================" +:+ newline in
    let sb := sb +:+ "Total Events: " +:+ fmt_d (Total r) +:+ newline in
    let sb := sb +:+ "Source URL: " +:+ SourceURL r +:+ newline in
    let sb := sb +:+ "Scraped At: "
              +:+ time_Format (Timestamp r) "2006-01-02 15:04:05" +:+ newline in
    let sb := sb +:+ newline in
    let range :=
      if 0 <? len (Events r) then
        match Events r !! 0%nat, Events r !! Z.to_nat (len (Events r) - 1) with
        | Some firstEvent, Some lastEvent =>
            Some (sb +:+ "Date Range: " +:+ DateTime firstEvent +:+ " to "
                  +:+ DateTime lastEvent +:+ newline)
        | _, _ => None
        end
      else Some sb in
    match range with
    | None => None
    | Some sb =>
        let sb := sb +:+ newline +:+ "Sample Events:" +:+ newline in
        let limit := 3 in
        let limit := if len (Events r) <? limit then len (Events r) else limit in
        sampleLoop (Events r) 0 (Z.to_nat limit) sb
    end.

(* ===================================================================== *)
(** * Package scraper: the three scrapers *)
(* ===================================================================== *)

(** The outcome of [collector.Visit(url)]: an error, or the elements that
    match the selector of [OnHTML], in the order the callback receives
    them. *)
Inductive Visit (E : Type) : Type :=
| VisitError (err : error)
| Visited (elements : list E).
Arguments VisitError {E} err.
Arguments Visited {E} elements.

(** What the selectors of [parseTicketEvent] read from one list item. *)
Record HelloElement : Type := mkHelloElement {
  hello_href : string;        (* ChildAttr("a.performance__link", "href") *)
  hello_dateMonth : string;   (* ChildText(".performance__date-month") *)
  hello_day : string;         (* ChildText(".performance__date-day p:first-child") *)
  hello_time : string;        (* ChildText(".performance__date-day p:last-child") *)
  hello_name : string         (* ChildText(".performance__description__name") *)
}.

(** What the selectors of [parseVividSeatsTicketEvent] read from one
    listing. *)
Record VividElement : Type := mkVividElement {
  vivid_href : string;        (* ChildAttr("a.styles_linkContainer__4li3j", "href") *)
  vivid_day : string;         (* span.MuiTypography-overline *)
  vivid_dateMonth : string;   (* span.MuiTypography-small-bold *)
  vivid_time : string;        (* span.MuiTypography-caption *)
  vivid_name : string         (* span.styles_titleTruncate__XiZ53 *)
}.

(** What the selectors of [parseSport365SelectionEvent] read from one match
    row. *)
Record SportElement : Type := mkSportElement {
  sport_href : string;        (* Attr("href") *)
  sport_status : string;      (* .match-col.status .status-content *)
  sport_home : string;        (* .match-col.home-team .team-name *)
  sport_away : string         (* .match-col.away-team .team-name *)
}.

(** The outcome of the Sport365 fetch: [chromedp.Run] fails, or the HTML it
    returned cannot be read by goquery, or the rows of the document. *)
Inductive SportPage : Type :=
| ChromeError (err : error)
| HTMLError (err : error)
| Rendered (rows : list SportElement).

Record Scraper : Type := mkScraper { baseURL : string }.
Record VividSeatsScraper : Type := mkVividSeatsScraper { vividBaseURL : string }.
Record Sport365Scraper : Type := mkSport365Scraper { sportBaseURL : string }.

Definition NewScraper : Scraper := mkScraper "https://www.hellotickets.com".
Definition NewVividSeatsScraper : VividSeatsScraper :=
  mkVividSeatsScraper "https://www.vividseats.com".
Definition NewSport365Scraper : Sport365Scraper :=
  mkSport365Scraper "https://www.sport365.com".

(** [result.Events = append(result.Events, *event)] for each element whose
    parse is not nil. *)
Fixpoint collect {E} (parse : E → option TicketEvent) (elements : list E)
    (events : list TicketEvent) : list TicketEvent :=
  match elements with
  | [] => events
  | e :: elements' =>
      match parse e with
      | Some event => collect parse elements' (events ++ [event])
      | None => collect parse elements' events
      end
  end.

Definition isReasonableYear (year : string) : bool :=
  String.eqb year "2025" || String.eqb year "2026" || String.eqb year "2027"
  || String.eqb year "2028" || String.eqb year "2029" || String.eqb year "2030".

(** The loop [for i := len(dayPart) - 4; i >= 0; i--] of
    [formatDateWithYear]; [k] is [i + 1]. *)
Fixpoint yearScan (part0 dayPart : string) (k : nat) : option string :=
  match k with
  | O => None
  | S i =>
      let year := String.substring i 4 dayPart in
      let day := String.substring 0 i dayPart in
      if isReasonableYear year
      then Some (part0 +:+ " " +:+ day +:+ " " +:+ year)
      else yearScan part0 dayPart i
  end.

Section Scrapers.
Context `{Unicode}.

Definition parseTicketEvent (s : Scraper) (e : HelloElement)
  : option TicketEvent :=
  let link := hello_href e in
  if String.eqb link "" then None
  else
    let link := if negb (strings.HasPrefix link "http")
                then baseURL s +:+ link else link in
    let dateMonth := strings.TrimSpace (hello_dateMonth e) in
    let day := strings.TrimSpace (hello_day e) in
    let timeStr := strings.TrimSpace (hello_time e) in
    let event := strings.TrimSpace (hello_name e) in
    let datetime := dateMonth +:+ " " +:+ day +:+ " " +:+ timeStr in
    Some {| DateTime := datetime; Event := event; Link := link;
            Source := "hellotickets" |}.

(** [now] is the reading of [time.Now()] for [Timestamp]. *)
Definition ScrapeRealMadridTickets (s : Scraper) (now : time.Time)
    (visit : Visit HelloElement) : option ScrapingResult * option error :=
  let url := "https://www.hellotickets.com/real-madrid-cf-tickets/p-598?qs=real%20mar" in
  match visit with
  | VisitError err => (None, Some ("failed to visit URL: " +:+ err))
  | Visited elements =>
      let events := collect (parseTicketEvent s) elements [] in
      (Some {| Events := events; Total := len events; Timestamp := now;
               SourceURL := url; ResultSource := "hellotickets" |}, None)
  end.

Definition formatDateWithYear (s : VividSeatsScraper) (dateStr : string)
  : string :=
  match strings.Fields dateStr with
  | part0 :: dayPart :: _ =>
      if (5 <=? String.length dayPart)%nat then
        match yearScan part0 dayPart (String.length dayPart - 3) with
        | Some formatted => formatted
        | None => dateStr
        end
      else dateStr
  | _ => dateStr
  end.

Definition parseVividSeatsTicketEvent (s : VividSeatsScraper) (e : VividElement)
  : option TicketEvent :=
  let link := vivid_href e in
  if String.eqb link "" then None
  else
    let link := if negb (strings.HasPrefix link "http")
                then vividBaseURL s +:+ link else link in
    let day := strings.TrimSpace (vivid_day e) in
    let dateMonth := strings.TrimSpace (vivid_dateMonth e) in
    let timeStr := strings.TrimSpace (vivid_time e) in
    let event := strings.TrimSpace (vivid_name e) in
    let formattedDate := formatDateWithYear s dateMonth in
    let datetime := formattedDate +:+ " " +:+ day +:+ " " +:+ timeStr in
    Some {| DateTime := datetime; Event := event; Link := link;
            Source := "vividseats" |}.

Definition ScrapeVividSeatsRealMadridTickets (s : VividSeatsScraper)
    (now : time.Time) (visit : Visit VividElement)
  : option ScrapingResult * option error :=
  let url := "https://www.vividseats.com/real-madrid-tickets--sports-soccer/performer/3053" in
  match visit with
  | VisitError err => (None, Some ("failed to visit URL: " +:+ err))
  | Visited elements =>
      let events := collect (parseVividSeatsTicketEvent s) elements [] in
      (Some {| Events := events; Total := len events; Timestamp := now;
               SourceURL := url; ResultSource := "vividseats" |}, None)
  end.

Definition parseSport365SelectionEvent (s : Sport365Scraper) (sel : SportElement)
  : option TicketEvent :=
  let link := sport_href sel in
  if String.eqb link "" then None
  else
    let link := if negb (strings.HasPrefix link "http")
                then sportBaseURL s +:+ link else link in
    let date := strings.TrimSpace (sport_status sel) in
    let homeTeam := strings.TrimSpace (sport_home sel) in
    let awayTeam := strings.TrimSpace (sport_away sel) in
    let event := homeTeam +:+ " vs. " +:+ awayTeam in
    let datetime := date in
    Some {| DateTime := datetime; Event := event; Link := link;
            Source := "sport365" |}.

(** On an error this scraper returns the result it has built so far, with
    no events and [Total] at its zero value, next to the error. *)
Definition ScrapeSport365RealMadridMatches (s : Sport365Scraper)
    (now : time.Time) (page : SportPage)
  : option ScrapingResult * option error :=
  let url := "https://www.sport365.com/football/team/real-madrid/1-1973#/fixtures" in
  let result := {| Events := []; Total := 0; Timestamp := now;
                   SourceURL := url; ResultSource := "sport365" |} in
  match page with
  | ChromeError err =>
      (Some result, Some ("failed to scrape with ChromeDP: " +:+ err))
  | HTMLError err => (Some result, Some ("failed to parse HTML: " +:+ err))
  | Rendered rows =>
      let events := collect (parseSport365SelectionEvent s) rows [] in
      (Some {| Events := events; Total := len events; Timestamp := now;
               SourceURL := url; ResultSource := "sport365" |}, None)
  end.

End Scrapers.

(* ===================================================================== *)
(** * Package main: handleScrape *)
(* ===================================================================== *)

(** The places where [handleScrape] and what it calls read the clock. *)
Inductive ClockRead : Type :=
| AtHelloTickets | AtVividSeats | AtSport365   (* Timestamp of a scrape *)
| AtMerge                                      (* Timestamp of the merge *)
| AtFrom | AtTo                                (* default bounds of the range *)
| AtEvent (i : nat).                           (* parseEventDate, event i *)

(** What one request meets: the three sites, the clock, and the key orders
    of the alias map during the normalization of each event. *)
Record Env : Type := mkEnv {
  helloVisit : Visit HelloElement;
  vividVisit : Visit VividElement;
  sportPage : SportPage;
  Now : ClockRead → time.Time;
  keyOrders : nat → list string * list string
}.

(** The query parameters, as [query.Get] returns them. *)
Record Query : Type := mkQuery {
  q_source : string;
  q_normalize : string;
  q_filter : string;
  q_from : string;
  q_to : string
}.

(** What the handler writes: [http.Error(w, body, code)], or the JSON
    encoding of the result it holds, or a nil-pointer panic. *)
Inductive Response : Type :=
| HttpError (body : string) (code : Z)
| Encoded (result : ScrapingResult)
| NilPanic.

Definition StatusBadRequest : Z := 400.
Definition StatusInternalServerError : Z := 500.

(** The sites that a request has fetched, in order. *)
Inductive Site : Type := HelloTickets | VividSeats | Sport365.

(** [%v] of an error value; a nil error prints as [<nil>]. *)
Definition showError (e : option error) : string :=
  match e with Some msg => msg | None => "<nil>" end.

Definition resultEvents (r : option ScrapingResult) : list TicketEvent :=
  match r with Some x => Events x | None => [] end.

Section Main.
Context `{Unicode} `{Edlib}.

(** The [switch source] of [handleScrape]. Left: the handler has answered
    and returned. Right: the variables [result] and [err] after the
    switch. The last component lists the sites fetched. *)
Definition scrapeSwitch (env : Env) (source : string)
  : (Response + (option ScrapingResult * option error)) * list Site :=
  if String.eqb source "hellotickets" then
    (inr (ScrapeRealMadridTickets NewScraper (Now env AtHelloTickets)
            (helloVisit env)), [HelloTickets])
  else if String.eqb source "vividseats" then
    (inr (ScrapeVividSeatsRealMadridTickets NewVividSeatsScraper
            (Now env AtVividSeats) (vividVisit env)), [VividSeats])
  else if String.eqb source "sport365" then
    (inr (ScrapeSport365RealMadridMatches NewSport365Scraper
            (Now env AtSport365) (sportPage env)), [Sport365])
  else if String.eqb source "all" then
    let '(helloResult, err1) :=
      ScrapeRealMadridTickets NewScraper (Now env AtHelloTickets) (helloVisit env) in
    let '(vividResult, err2) :=
      ScrapeVividSeatsRealMadridTickets NewVividSeatsScraper
        (Now env AtVividSeats) (vividVisit env) in
    let '(sportResult, err3) :=
      ScrapeSport365RealMadridMatches NewSport365Scraper
        (Now env AtSport365) (sportPage env) in
    match err1, err2, err3 with
    | Some _, Some _, Some _ =>
        (inl (HttpError ("Failed to scrape from all sources: " +:+ showError err1
                         +:+ ", " +:+ showError err2 +:+ ", " +:+ showError err3)
                StatusInternalServerError),
         [HelloTickets; VividSeats; Sport365])
    | _, _, _ =>
        let events := [] in
        let events := match helloResult with
                      | Some r => events ++ Events r | None => events end in
        let events := match vividResult with
                      | Some r => events ++ Events r | None => events end in
        let events := match sportResult with
                      | Some r => events ++ Events r | None => events end in
        (inr (Some {| Events := events; Total := len events;
                      Timestamp := Now env AtMerge;
                      SourceURL := "multiple_sources";
                      ResultSource := "all" |}, None),
         [HelloTickets; VividSeats; Sport365])
    end
  else
    (inl (HttpError "Invalid source. Use: hellotickets, vividseats, sport365, or all"
            StatusBadRequest), []).

(** The part of [handleScrape] after the scrape has succeeded:
    normalization, keyword filter, date range, encoding. *)
Definition respond (env : Env) (q : Query) (result : ScrapingResult)
  : Response :=
  let normalize := String.eqb (q_normalize q) "true" in
  let filter := q_filter q in
  let dateFrom := q_from q in
  let dateTo := q_to q in
  let result :=
    if normalize
    then NormalizeScrapingResult NewTeamNameNormalizer (keyOrders env) result
    else result in
  let result :=
    if negb (String.eqb filter "") then FilterByKeyword result filter
    else result in
  if negb (String.eqb dateFrom "") || negb (String.eqb dateTo "") then
    let start :=
      if negb (String.eqb dateFrom "")
      then time.Parse layoutISODate dateFrom
      else Some (time.AddDate (Now env AtFrom) (-1)) in
    match start with
    | None => HttpError ("Invalid from date: " +:+ dateFrom) StatusBadRequest
    | Some startDate =>
        let stop :=
          if negb (String.eqb dateTo "")
          then time.Parse layoutISODate dateTo
          else Some (time.AddDate (Now env AtTo) 2) in
        match stop with
        | None => HttpError ("Invalid to date: " +:+ dateTo) StatusBadRequest
        | Some endDate =>
            Encoded (FilterByDate (fun i => Now env (AtEvent i)) result
                       startDate endDate)
        end
    end
  else Encoded result.

(** [handleScrape]: the response written and the sites fetched. *)
Definition handleScrape (env : Env) (q : Query) : Response * list Site :=
  let source := if String.eqb (q_source q) "" then "hellotickets"
                else q_source q in
  match scrapeSwitch env source with
  | (inl response, fetched) => (response, fetched)
  | (inr (_, Some err), fetched) =>
      (HttpError ("Scraping failed: " +:+ err) StatusInternalServerError, fetched)
  | (inr (Some result, None), fetched) => (respond env q result, fetched)
  | (inr (None, None), fetched) =>
      (* [result] is nil: the first use of it dereferences nil *)
      (NilPanic, fetched)
  end.

End Main.

(* ===================================================================== *)
(** * Notions used in the statements *)
(* ===================================================================== *)

(** The keys of a Go map; [range] visits them in some order [order] with
    [order ≡ₚ mapKeys m]. *)
Definition mapKeys (m : gmap string string) : list string := (map_to_list m).*1.

(** The instants from [startDate] to [endDate], both included. *)
Definition withinRange (startDate endDate t : time.Time) : Prop :=
  time.UnixNano startDate <= time.UnixNano t <= time.UnixNano endDate.

(** The event of [FilterByDate] survives: its date does not parse, or
    parses into the range. *)
Definition keptByDate (now startDate endDate : time.Time) (event : TicketEvent)
  : bool :=
  match parseEventDate now (DateTime event) with
  | (_, Some _) => true
  | (t, None) =>
      (time.UnixNano startDate <=? time.UnixNano t)
      && (time.UnixNano t <=? time.UnixNano endDate)
  end.

(** The events kept from index [i] on, with their original positions. *)
Definition keptFrom (clock : nat → time.Time) (startDate endDate : time.Time)
    (i : nat) (events : list TicketEvent) : list TicketEvent :=
  (List.filter (fun ie => keptByDate (clock (i + ie.1)%nat) startDate endDate ie.2)
     (imap pair events)).*2.

(** Equal up to the case of the ASCII letters. *)
Definition equalFold (a b : string) : Prop :=
  strings.mapBytes strings.lowerByte a = strings.mapBytes strings.lowerByte b.



Section Notions.
Context `{Unicode} `{Edlib}.

(** The key that [normalizeTeamName] looks up: lower case, suffix tokens
    removed, trimmed. *)
Definition cleanTeamName (teamName : string) : string :=
  strings.TrimSpace
    (regexp.ReplaceAllString suffixPattern
       (strings.TrimSpace (strings.ToLower teamName)) "").


(** The results that the operations of the program return: those of the
    three scrapers (also next to an error), of the merge of all sources, of
    the normalizer and the two filters applied to such results, and those
    that [handleScrape] encodes. *)
Inductive Produced : ScrapingResult → Prop :=
| produced_hello s now visit r e :
    ScrapeRealMadridTickets s now visit = (Some r, e) → Produced r
| produced_vivid s now visit r e :
    ScrapeVividSeatsRealMadridTickets s now visit = (Some r, e) → Produced r
| produced_sport s now page r e :
    ScrapeSport365RealMadridMatches s now page = (Some r, e) → Produced r
| produced_merge env r e fetched :
    scrapeSwitch env "all" = (inr (Some r, e), fetched) → Produced r
| produced_normalize n orders r :
    Produced r → Produced (NormalizeScrapingResult n orders r)
| produced_keyword r keyword :
    Produced r → Produced (FilterByKeyword r keyword)
| produced_date clock r startDate endDate :
    Produced r → Produced (FilterByDate clock r startDate endDate)
| produced_response env q r fetched :
    handleScrape env q = (Encoded r, fetched) → Produced r.

(** The outcomes of the three scrapes of a request. *)
Definition helloOutcome (env : Env) : option ScrapingResult * option error :=
  ScrapeRealMadridTickets NewScraper (Now env AtHelloTickets) (helloVisit env).
Definition vividOutcome (env : Env) : option ScrapingResult * option error :=
  ScrapeVividSeatsRealMadridTickets NewVividSeatsScraper (Now env AtVividSeats)
    (vividVisit env).
Definition sportOutcome (env : Env) : option ScrapingResult * option error :=
  ScrapeSport365RealMadridMatches NewSport365Scraper (Now env AtSport365)
    (sportPage env).

Definition failed (o : option ScrapingResult * option error) : Prop :=
  o.2 ≠ None.

(** The events of a scrape that succeeded; none for one that failed. *)
Definition successEvents (o : option ScrapingResult * option error)
  : list TicketEvent :=
  match o with
  | (Some r, None) => Events r
  | _ => []
  end.

(** All three scrapes of the request fail. *)
Definition allFailed (env : Env) : Prop :=
  failed (helloOutcome env) ∧ failed (vividOutcome env)
  ∧ failed (sportOutcome env).

End Notions.

(** Two fetch outcomes that are the same success, or both a failure. *)
Definition sameVisit {E} (a b : Visit E) : Prop :=
  match a, b with
  | Visited x, Visited y => x = y
  | VisitError _, VisitError _ => True
  | _, _ => False
  end.
Definition samePage (a b : SportPage) : Prop :=
  match a, b with
  | Rendered x, Rendered y => x = y
  | Rendered _, _ | _, Rendered _ => False
  | _, _ => True
  end.

(** Two environments that differ at most in the errors of the sites that
    fail. *)
Definition sameUpToErrors (env env' : Env) : Prop :=
  sameVisit (helloVisit env) (helloVisit env')
  ∧ sameVisit (vividVisit env) (vividVisit env')
  ∧ samePage (sportPage env) (sportPage env')
  ∧ Now env = Now env'
  ∧ keyOrders env = keyOrders env'.

Definition isStatus (code : Z) (response : Response) : Prop :=
  ∃ body, response = HttpError body code.

(** The variable [source] of [handleScrape]: the parameter, or its
    default. *)
Definition requestedSource (q : Query) : string :=
  if String.eqb (q_source q) "" then "hellotickets" else q_source q.






(* ===================================================================== *)
(** * A concrete request *)
(* ===================================================================== *)

(** Instances for closed examples. The strings of the examples are ASCII,
    so that no member of [asciiOnly] is reached. *)
Definition asciiOnly : Unicode :=
  {| unicode_ToLower := id; unicode_Title := id; unicode_TrimSpace := id;
     unicode_TrimRightSpace := id; unicode_Fields := fun s => [s] |}.

(** The library returning the exact scores. *)
Definition exactScores : Edlib :=
  {| StringsSimilarity := edlib.exactSimilarity |}.

Definition idleHost : Host :=
  {| json_Marshal := fun _ _ => ("{}", None);
     tabwriter_Flush := id;
     os_WriteFile := fun _ _ => None |}.

(** 15 June 2025, noon, UTC. *)
Definition noon : time.Time := time.mkTime 2025 6 15 12 0 0 0 0.
Definition newYear2025 : time.Time := time.mkTime 2025 1 1 0 0 0 0 0.
Definition newYearsEve2025 : time.Time := time.mkTime 2025 12 31 0 0 0 0 0.

Definition tableOrder : list string := mapKeys getStandardTeamMappings.

Definition sampleElement : HelloElement :=
  mkHelloElement "/tickets/1" "27 Sep" "Sat" "4:15pm"
    "Real Madrid CF vs. FC Barcelona".

(** HelloTickets answers with one match; the other two sites fail. *)
Definition sampleEnv : Env :=
  {| helloVisit := Visited [sampleElement];
     vividVisit := VisitError "connection refused";
     sportPage := ChromeError "context deadline exceeded";
     Now := fun _ => noon;
     keyOrders := fun _ => (tableOrder, tableOrder) |}.

Definition sampleEvents : list TicketEvent :=
  [ mkTicketEvent "27 Sep Sat 4:15pm" "Real Madrid vs Barcelona" "https://a" "hellotickets";
    mkTicketEvent "to be announced" "Real Madrid vs Getafe" "https://b" "vividseats";
    mkTicketEvent "01 Jan 2020" "Real Madrid vs Sevilla" "https://c" "sport365" ].

Definition sampleResult : ScrapingResult :=
  {| Events := sampleEvents; Total := 3; Timestamp := noon;
     SourceURL := "multiple_sources"; ResultSource := "all" |}.

(** What the merge of [sampleEnv] holds. *)
Definition sampleMerged : ScrapingResult :=
  {| Events := [ mkTicketEvent "27 Sep Sat 4:15pm" "Real Madrid CF vs. FC Barcelona"
                   "https://www.hellotickets.com/tickets/1" "hellotickets" ];
     Total := 1; Timestamp := noon;
     SourceURL := "multiple_sources"; ResultSource := "all" |}.

Definition allQuery : Query := mkQuery "all" "true" "madrid" "2025-01-01" "".

(* ===================================================================== *)
(** * Notions used in the further properties *)
(* ===================================================================== *)

(** No layout of [parseEventDate] parses the string. *)
Definition rejected (dateTimeStr : string) : bool :=
  forallb (fun f => match time.Parse f dateTimeStr with
                    | Some _ => false
                    | None => true
                    end) formats.

(** The date of [a] is the date of [b] or an earlier one (year, month and
    day compared in this order). *)
Definition dateLe (a b : time.Time) : Prop :=
  time.Year a < time.Year b
  ∨ (time.Year a = time.Year b
     ∧ (time.Month a < time.Month b
        ∨ (time.Month a = time.Month b ∧ time.Day a <= time.Day b))).

(** No word of [s] begins with the byte [v]; [prev] is the byte before
    [s]. *)
Fixpoint noWordBeginsWithV (prev : option ascii) (s : string) : bool :=
  match s with
  | EmptyString => true
  | String c s' =>
      negb (Ascii.eqb c "v" && negb (regexp.isWord prev))
      && noWordBeginsWithV (Some c) s'
  end.

(** The part of the summary before the date range. *)
Definition summaryHead `{Fmt} (r : ScrapingResult) : string :=
  "Scraping Summary:" +:+ newline +:+ "================" +:+ newline
  +:+ "Total Events: " +:+ fmt_d (Total r) +:+ newline
  +:+ "Source URL: " +:+ SourceURL r +:+ newline
  +:+ "Scraped At: " +:+ time_Format (Timestamp r) "2006-01-02 15:04:05"
  +:+ newline +:+ newline.

(** The line of the summary for one event. *)
Definition sampleLine (event : TicketEvent) : string :=
  "- " +:+ DateTime event +:+ ": " +:+ Event event +:+ newline.

(** A library that prints nothing. *)
Definition silentFmt : Fmt :=
  {| fmt_d := fun _ => ""; time_Format := fun _ _ => "" |}.

(** What HelloTickets returns for the page of [sampleEnv]. *)
Definition sampleScraped : ScrapingResult :=
  {| Events := Events sampleMerged; Total := 1; Timestamp := noon;
     SourceURL := "https://www.hellotickets.com/real-madrid-cf-tickets/p-598?qs=real%20mar";
     ResultSource := "hellotickets" |}.

Definition sampleQuery : Query := mkQuery "hellotickets" "" "madrid" "" "".

(** A result whose dates are written with their year, or are no dates. *)
Definition datedResult : ScrapingResult :=
  {| Events := [ mkTicketEvent "2025-09-27" "Real Madrid vs Barcelona" "https://a"
                   "hellotickets";
                 mkTicketEvent "to be announced" "Real Madrid vs Getafe" "https://b"
                   "vividseats" ];
     Total := 2; Timestamp := noon;
     SourceURL := "multiple_sources"; ResultSource := "all" |}.

Definition novemberEvent : TicketEvent :=
  mkTicketEvent " 27 Nov Sat 4:15pm " "Real Madrid v Sevilla" "https://d" "sport365".

(* ===================================================================== *)
(** * Substrings *)
(* ===================================================================== *)

Lemma HasPrefix_spec s p :
  strings.HasPrefix s p = true ↔ ∃ post, s = p +:+ post.
Proof.
  revert s. induction p as [|a p IH]; intros s.
  - destruct s; simpl; split; eauto.
  - destruct s as [|c s]; simpl.
    + split; [done|]. intros [post Hpost]. discriminate.
    + rewrite andb_true_iff, IH. split.
      * intros [Hc [post ->]]. apply Ascii.eqb_eq in Hc as ->. by exists post.
      * intros [post [= -> ->]]. split; [apply Ascii.eqb_refl|by exists post].
Qed.

Lemma Contains_spec s substr :
  strings.Contains s substr = true ↔ ∃ pre post, s = pre +:+ substr +:+ post.
Proof.
  induction s as [|c s IH].
  - change (strings.Contains "" substr)
      with (strings.HasPrefix "" substr || false).
    rewrite orb_false_r, HasPrefix_spec. split.
    + intros [post Hpost]. by exists "", post.
    + intros (pre & post & Heq). destruct pre; [by exists post|discriminate].
  - change (strings.Contains (String c s) substr)
      with (strings.HasPrefix (String c s) substr || strings.Contains s substr).
    rewrite orb_true_iff, HasPrefix_spec, IH. split.
    + intros [[post Hpost]|(pre & post & ->)].
      * by exists "", post.
      * by exists (String c pre), post.
    + intros (pre & post & Heq). destruct pre as [|a pre].
      * left. by exists post.
      * right. injection Heq as -> ->. by exists pre, post.
Qed.

Lemma mapBytes_app f a b :
  strings.mapBytes f (a +:+ b) = strings.mapBytes f a +:+ strings.mapBytes f b.
Proof. induction a as [|x a IH]; simpl; [done|]. by rewrite IH. Qed.

Lemma mapBytes_split f s x y :
  strings.mapBytes f s = x +:+ y →
  ∃ a b, s = a +:+ b ∧ strings.mapBytes f a = x ∧ strings.mapBytes f b = y.
Proof.
  revert s. induction x as [|c x IH]; intros s Hs; simpl in Hs.
  - by exists "", s.
  - destruct s as [|d s]; [discriminate|]. simpl in Hs. injection Hs as Hc Hs.
    destruct (IH s Hs) as (a & b & -> & Ha & Hb).
    exists (String d a), b. simpl. by rewrite Hc, Ha.
Qed.

(** On ASCII strings, the test of [FilterByKeyword] on one field is: some
    piece of the field equals the keyword up to case. *)
Lemma Contains_ToLower_ascii `{Unicode} (s keyword : string) :
  strings.isASCII s = true → strings.isASCII keyword = true →
  strings.Contains (strings.ToLower s) (strings.ToLower keyword) = true
  ↔ ∃ pre mid post, s = pre +:+ mid +:+ post ∧ equalFold mid keyword.
Proof.
  intros Hs Hk. unfold strings.ToLower, equalFold. rewrite Hs, Hk, Contains_spec.
  split.
  - intros (pre' & post' & Heq).
    apply mapBytes_split in Heq as (pre & rest & -> & _ & Hrest).
    apply mapBytes_split in Hrest as (mid & post & -> & Hmid & _).
    by exists pre, mid, post.
  - intros (pre & mid & post & -> & Hmid).
    exists (strings.mapBytes strings.lowerByte pre),
           (strings.mapBytes strings.lowerByte post).
    by rewrite !mapBytes_app, Hmid.
Qed.

(* ===================================================================== *)
(** * The patterns take at least one byte *)
(* ===================================================================== *)

Lemma lit_length l prev s p s' :
  regexp.lit l prev s = Some (p, s') →
  String.length s = (String.length l + String.length s')%nat.
Proof.
  revert prev s. induction l as [|a l IH]; intros prev s Hl; simpl in *.
  - by inversion Hl.
  - destruct s as [|c s]; [done|]. destruct (Ascii.eqb a c); [|done].
    simpl. by rewrite (IH _ _ Hl).
Qed.

Lemma matchAt_consumes {A} (r : regexp.re) :
  ∀ prev s (k : option ascii → string → option A) x,
    regexp.matchAt r prev s k = Some x →
    ∃ p' s', k p' s' = Some x
             ∧ (String.length s' + regexp.minLen r ≤ String.length s)%nat.
Proof.
  induction r as [l| |a IHa b IHb|a IHa b IHb|a IHa]; intros prev s k x Hm;
    simpl in *.
  - destruct (regexp.lit l prev s) as [[p s']|] eqn:Hl; [|done].
    exists p, s'. split; [done|]. apply lit_length in Hl. lia.
  - destruct (xorb _ _); [|done]. exists prev, s. split; [done|lia].
  - apply IHa in Hm as (p1 & s1 & Hm & H1).
    apply IHb in Hm as (p2 & s2 & Hm & H2).
    exists p2, s2. split; [done|lia].
  - destruct (regexp.matchAt a prev s k) as [y|] eqn:Ha.
    + injection Hm as ->. apply IHa in Ha as (p' & s' & Hk & Hlen).
      exists p', s'. split; [done|lia].
    + apply IHb in Hm as (p' & s' & Hk & Hlen). exists p', s'. split; [done|lia].
  - destruct (regexp.matchAt a prev s k) as [y|] eqn:Ha.
    + injection Hm as ->. apply IHa in Ha as (p' & s' & Hk & Hlen).
      exists p', s'. split; [done|lia].
    + exists prev, s. split; [done|lia].
Qed.

(** A match of one of the three patterns of the normalizer is never
    empty. *)
Lemma patterns_consume r prev s rest :
  r = vsPattern ∨ r = vPattern ∨ r = suffixPattern →
  regexp.matchPrefix r prev s = Some rest →
  (String.length rest < String.length s)%nat.
Proof.
  intros Hr Hm. unfold regexp.matchPrefix in Hm.
  apply matchAt_consumes in Hm as (p' & s' & [= ->] & Hlen).
  destruct Hr as [->|[->| ->]]; simpl in Hlen; lia.
Qed.

(* ===================================================================== *)
(** * Loops as list functions *)
(* ===================================================================== *)

Lemma len_app {A} (l k : list A) : len (l ++ k) = len l + len k.
Proof. unfold len. rewrite length_app. lia. Qed.

Lemma collect_spec {E} (parse : E → option TicketEvent) elements events :
  collect parse elements events = events ++ omap parse elements.
Proof.
  revert events. induction elements as [|e elements IH]; intros events; simpl.
  - by rewrite app_nil_r.
  - destruct (parse e) as [event|]; rewrite IH; [|done].
    by rewrite <- app_assoc.
Qed.

Section LoopLemmas.
Context `{Unicode} `{Edlib} `{Host}.

Lemma keywordLoop_spec keywordLower events filtered :
  keywordLoop keywordLower events filtered
  = filtered ++ List.filter (keywordMatches keywordLower) events.
Proof.
  revert filtered. induction events as [|event events IH]; intros filtered; simpl.
  - by rewrite app_nil_r.
  - destruct (keywordMatches keywordLower event); rewrite IH; [|done].
    by rewrite <- app_assoc.
Qed.

Lemma filter_idem {A} (p : A → bool) (l : list A) :
  List.filter p (List.filter p l) = List.filter p l.
Proof.
  induction l as [|x l IH]; simpl; [done|].
  destruct (p x) eqn:Hp; simpl; [|done]. by rewrite Hp, IH.
Qed.

Lemma FilterByKeyword_events r keyword :
  Events (FilterByKeyword r keyword)
  = if String.eqb keyword "" then Events r
    else List.filter (keywordMatches (strings.ToLower keyword)) (Events r).
Proof.
  unfold FilterByKeyword. destruct (String.eqb keyword ""); [done|].
  simpl. by rewrite keywordLoop_spec.
Qed.

Lemma normalizeLoop_spec n orders events :
  ∀ i done todo,
    length done = i → length todo = length events →
    normalizeLoop n orders i events (done ++ todo)
    = done ++ imap (fun j e => NormalizeEvent n (orders (i + j)%nat) e) events.
Proof.
  induction events as [|event events IH]; intros i done todo Hi Hlen; simpl.
  - destruct todo; [done|discriminate].
  - destruct todo as [|t todo]; [discriminate|].
    replace (<[i:=NormalizeEvent n (orders i) event]> (done ++ t :: todo))
      with ((done ++ [NormalizeEvent n (orders i) event]) ++ todo).
    + rewrite (IH (S i)).
      * rewrite <- app_assoc. simpl. f_equal. f_equal.
        { f_equal. f_equal. lia. }
        apply imap_ext. intros j e _. simpl. do 2 f_equal. lia.
      * rewrite length_app. simpl. lia.
      * simpl in Hlen. lia.
    + rewrite <- app_assoc. simpl. subst i.
      rewrite insert_app_r_alt by lia.
      by rewrite Nat.sub_diag.
Qed.

Lemma NormalizeScrapingResult_events n orders result :
  Events (NormalizeScrapingResult n orders result)
  = imap (fun i e => NormalizeEvent n (orders i) e) (Events result).
Proof.
  unfold NormalizeScrapingResult. simpl.
  apply (normalizeLoop_spec n orders (Events result) 0%nat []); [done|].
  by rewrite length_replicate.
Qed.

End LoopLemmas.

Lemma keptByDate_tests now startDate endDate event :
  keptByDate now startDate endDate event
  = match parseEventDate now (DateTime event) with
    | (_, Some _) => true
    | (eventDate, None) =>
        (time.After eventDate startDate || time.Equal eventDate startDate)
        && (time.Before eventDate endDate || time.Equal eventDate endDate)
    end.
Proof.
  unfold keptByDate, time.After, time.Before, time.Equal.
  destruct (parseEventDate now (DateTime event)) as [t [e|]]; [done|].
  apply eq_true_iff_eq.
  rewrite !andb_true_iff, !orb_true_iff, !Z.leb_le, !Z.ltb_lt, !Z.eqb_eq. lia.
Qed.

Lemma filter_imap_ext {A B C} (p q : B → bool) (g h : nat → A → B)
    (proj : B → C) (l : list A) :
  (∀ j e, p (g j e) = q (h j e)) →
  (∀ j e, proj (g j e) = proj (h j e)) →
  proj <$> List.filter p (imap g l) = proj <$> List.filter q (imap h l).
Proof.
  revert g h. induction l as [|x l IH]; intros g h Hp Hproj; simpl; [done|].
  rewrite Hp. destruct (q (h 0%nat x)); simpl.
  - rewrite Hproj. f_equal. apply IH; intros; simpl; auto.
  - apply IH; intros; simpl; auto.
Qed.

Lemma keptFrom_cons clock startDate endDate i event events :
  keptFrom clock startDate endDate i (event :: events)
  = (if keptByDate (clock i) startDate endDate event then [event] else [])
    ++ keptFrom clock startDate endDate (S i) events.
Proof.
  unfold keptFrom. simpl. rewrite Nat.add_0_r.
  assert (Hshift :
    (List.filter (fun ie => keptByDate (clock (i + ie.1)%nat) startDate endDate ie.2)
       (imap (pair ∘ S) events)).*2
    = (List.filter (fun ie => keptByDate (clock (S i + ie.1)%nat) startDate endDate ie.2)
         (imap pair events)).*2).
  { apply filter_imap_ext; intros j e; simpl; [|done].
    by replace (i + S j)%nat with (S (i + j)) by lia. }
  destruct (keptByDate (clock i) startDate endDate event); simpl;
    [f_equal|]; exact Hshift.
Qed.

Lemma dateLoop_spec clock startDate endDate events :
  ∀ i filtered,
    dateLoop clock startDate endDate i events filtered
    = filtered ++ keptFrom clock startDate endDate i events.
Proof.
  induction events as [|event events IH]; intros i filtered.
  - simpl. unfold keptFrom. simpl. by rewrite app_nil_r.
  - rewrite keptFrom_cons, (keptByDate_tests (clock i)). simpl.
    destruct (parseEventDate (clock i) (DateTime event)) as [t [e|]].
    + by rewrite IH, <- app_assoc.
    + destruct (_ && _); rewrite IH; [by rewrite <- app_assoc|done].
Qed.

(* ===================================================================== *)
(** * The filters *)
(* ===================================================================== *)

Section Filters.
Context `{Unicode} `{Edlib} `{Host}.

(** C9. [FilterByKeyword] keeps, in order, the events whose name, date
    string or source contains the keyword once both sides are in lower
    case (all events for the empty keyword), and filtering a second time
    with the same keyword returns the result of the first filtering. On
    ASCII strings, a field contains the keyword in that sense when a piece
    of it equals the keyword up to the case of the letters. *)
Theorem FilterByKeyword_idempotent (r : ScrapingResult) (keyword : string) :
  Events (FilterByKeyword r keyword)
  = (if String.eqb keyword "" then Events r
     else List.filter
            (fun event =>
               strings.Contains (strings.ToLower (Event event)) (strings.ToLower keyword)
               || strings.Contains (strings.ToLower (DateTime event)) (strings.ToLower keyword)
               || strings.Contains (strings.ToLower (Source event)) (strings.ToLower keyword))
            (Events r))
  ∧ FilterByKeyword (FilterByKeyword r keyword) keyword = FilterByKeyword r keyword
  ∧ (∀ field,
       strings.isASCII field = true → strings.isASCII keyword = true →
       strings.Contains (strings.ToLower field) (strings.ToLower keyword) = true
       ↔ ∃ pre mid post, field = pre +:+ mid +:+ post ∧ equalFold mid keyword).
Proof.
  split; [apply FilterByKeyword_events|].
  split; [|intros field; apply Contains_ToLower_ascii].
  unfold FilterByKeyword.
  destruct (String.eqb keyword ""); [done|].
  simpl. rewrite !keywordLoop_spec. simpl.
  by rewrite filter_idem.
Qed.

(** C10. [NormalizeEvent] returns the link and the source of its argument,
    and [NormalizeScrapingResult] returns as many events as it is given,
    the event at each index being [NormalizeEvent] of the one given at that
    index, with the other fields of the result as they were. *)
Theorem NormalizeScrapingResult_frame (n : TeamNameNormalizer)
    (orders : nat → list string * list string) (result : ScrapingResult) :
  (∀ o event, Link (NormalizeEvent n o event) = Link event
              ∧ Source (NormalizeEvent n o event) = Source event)
  ∧ length (Events (NormalizeScrapingResult n orders result))
    = length (Events result)
  ∧ (∀ i, Events (NormalizeScrapingResult n orders result) !! i
          = NormalizeEvent n (orders i) <$> Events result !! i)
  ∧ (∀ i, Link <$> Events (NormalizeScrapingResult n orders result) !! i
          = Link <$> Events result !! i)
  ∧ (∀ i, Source <$> Events (NormalizeScrapingResult n orders result) !! i
          = Source <$> Events result !! i)
  ∧ Total (NormalizeScrapingResult n orders result) = Total result
  ∧ Timestamp (NormalizeScrapingResult n orders result) = Timestamp result
  ∧ SourceURL (NormalizeScrapingResult n orders result) = SourceURL result
  ∧ ResultSource (NormalizeScrapingResult n orders result) = ResultSource result.
Proof.
  assert (Hat : ∀ i, Events (NormalizeScrapingResult n orders result) !! i
                     = NormalizeEvent n (orders i) <$> Events result !! i).
  { intros i. rewrite NormalizeScrapingResult_events.
    exact (list_lookup_imap (fun j e => NormalizeEvent n (orders j) e) _ i). }
  split; [done|]. split.
  { rewrite NormalizeScrapingResult_events. apply length_imap. }
  split; [exact Hat|].
  split; [|split; [|done]]; intros i; rewrite Hat;
    by destruct (Events result !! i).
Qed.

End Filters.

Lemma parseEventDate_fails_iff now s :
  (parseEventDate now s).2 ≠ None ↔ ∀ f, f ∈ formats → time.Parse f s = None.
Proof.
  unfold parseEventDate. generalize formats. intros fs.
  induction fs as [|f fs IH]; simpl.
  - split; [|done]. intros _ f Hf. by apply elem_of_nil in Hf.
  - destruct (time.Parse f s) as [t|] eqn:Hf; simpl.
    + split; [done|]. intros Hall.
      specialize (Hall f (list_elem_of_here _ _)). congruence.
    + rewrite IH. split.
      * intros Hall g [->|Hg]%elem_of_cons; auto.
      * intros Hall g Hg. apply Hall. by apply list_elem_of_further.
Qed.

(** C3. [FilterByDate] keeps, in order, exactly the events whose date
    string [parseEventDate] rejects and those it parses to an instant from
    [startDate] to [endDate], both included; the event at index [i] is
    judged with the clock reading [clock i]. Whether a date string is
    rejected depends on neither the clock nor the range. *)
Theorem FilterByDate_keeps (clock : nat → time.Time) (r : ScrapingResult)
    (startDate endDate : time.Time) :
  Events (FilterByDate clock r startDate endDate)
  = (List.filter (fun ie => keptByDate (clock ie.1) startDate endDate ie.2)
       (imap pair (Events r))).*2
  ∧ (∀ now event,
       keptByDate now startDate endDate event = true
       ↔ (parseEventDate now (DateTime event)).2 ≠ None
         ∨ withinRange startDate endDate (parseEventDate now (DateTime event)).1)
  ∧ (∀ now, (∀ i, clock i = now) →
       Events (FilterByDate clock r startDate endDate)
       = List.filter (keptByDate now startDate endDate) (Events r))
  ∧ (∀ now event,
       (∀ f, f ∈ formats → time.Parse f (DateTime event) = None) →
       keptByDate now startDate endDate event = true).
Proof.
  assert (Hev : Events (FilterByDate clock r startDate endDate)
                = keptFrom clock startDate endDate 0 (Events r)).
  { unfold FilterByDate. simpl. by rewrite dateLoop_spec. }
  split; [exact Hev|]. split; [|split]; [| |
    intros now event Hall; apply parseEventDate_fails_iff with (now := now) in Hall;
    unfold keptByDate;
    by destruct (parseEventDate now (DateTime event)) as [t [e|]] ].
  - intros now event. unfold keptByDate, withinRange.
    destruct (parseEventDate now (DateTime event)) as [t [e|]]; simpl.
    + split; [by left|done].
    + rewrite andb_true_iff, !Z.leb_le. split; [by right|].
      intros [Hn|Hr]; [done|exact Hr].
  - intros now Hclock. rewrite Hev. clear Hev. generalize 0%nat.
    induction (Events r) as [|event events IH]; intros i; [done|].
    rewrite keptFrom_cons, IH, Hclock. simpl.
    by destruct (keptByDate now startDate endDate event).
Qed.

(* ===================================================================== *)
(** * The invariant of ScrapingResult *)
(* ===================================================================== *)

Section Invariant.
Context `{Unicode} `{Edlib} `{Host}.

Lemma hello_total s now visit r e :
  ScrapeRealMadridTickets s now visit = (Some r, e) → Total r = len (Events r).
Proof.
  unfold ScrapeRealMadridTickets. destruct visit; intros [= <- _]; done.
Qed.

Lemma vivid_total s now visit r e :
  ScrapeVividSeatsRealMadridTickets s now visit = (Some r, e) →
  Total r = len (Events r).
Proof.
  unfold ScrapeVividSeatsRealMadridTickets. destruct visit; intros [= <- _]; done.
Qed.

Lemma sport_total s now page r e :
  ScrapeSport365RealMadridMatches s now page = (Some r, e) →
  Total r = len (Events r).
Proof.
  unfold ScrapeSport365RealMadridMatches. destruct page; intros [= <- _]; done.
Qed.

Lemma scrapeSwitch_total env source r e fetched :
  scrapeSwitch env source = (inr (Some r, e), fetched) → Total r = len (Events r).
Proof.
  unfold scrapeSwitch.
  destruct (String.eqb source "hellotickets").
  { intros [= Hs _]. eauto using hello_total. }
  destruct (String.eqb source "vividseats").
  { intros [= Hs _]. eauto using vivid_total. }
  destruct (String.eqb source "sport365").
  { intros [= Hs _]. eauto using sport_total. }
  destruct (String.eqb source "all"); [|discriminate].
  destruct (ScrapeRealMadridTickets _ _ _) as [helloResult [e1|]];
    destruct (ScrapeVividSeatsRealMadridTickets _ _ _) as [vividResult [e2|]];
    destruct (ScrapeSport365RealMadridMatches _ _ _) as [sportResult [e3|]];
    intros [= <- _]; done.
Qed.

Lemma normalize_total n orders r :
  Total r = len (Events r) →
  Total (NormalizeScrapingResult n orders r)
  = len (Events (NormalizeScrapingResult n orders r)).
Proof.
  intros Hr. unfold len. rewrite NormalizeScrapingResult_events, length_imap.
  exact Hr.
Qed.

Lemma keyword_total r keyword :
  Total r = len (Events r) →
  Total (FilterByKeyword r keyword) = len (Events (FilterByKeyword r keyword)).
Proof.
  intros Hr. unfold FilterByKeyword. by destruct (String.eqb keyword "").
Qed.

Lemma respond_total env q result r :
  Total result = len (Events result) →
  respond env q result = Encoded r → Total r = len (Events r).
Proof.
  intros Hr. unfold respond.
  set (r1 := if String.eqb (q_normalize q) "true" then _ else result).
  assert (H1' : Total r1 = len (Events r1)).
  { subst r1. destruct (String.eqb _ _); auto using normalize_total. }
  set (r2 := if negb (String.eqb (q_filter q) "") then _ else r1).
  assert (H2' : Total r2 = len (Events r2)).
  { subst r2. destruct (negb _); auto using keyword_total. }
  clearbody r2. clear H1' r1 Hr.
  destruct (negb (String.eqb (q_from q) "") || negb (String.eqb (q_to q) ""));
    [|by intros [= <-]].
  destruct (if negb (String.eqb (q_from q) "") then _ else _); [|discriminate].
  destruct (if negb (String.eqb (q_to q) "") then _ else _); [|discriminate].
  by intros [= <-].
Qed.

Lemma handleScrape_total env q r fetched :
  handleScrape env q = (Encoded r, fetched) → Total r = len (Events r).
Proof.
  unfold handleScrape.
  destruct (scrapeSwitch env _) as [[response|[[result|] [e|]]] tr] eqn:Hs;
    try discriminate.
  - intros [= -> _]. unfold scrapeSwitch in Hs.
    repeat (destruct (String.eqb _ _) in Hs; [discriminate|]).
    destruct (String.eqb _ _) in Hs; [|by inversion Hs].
    repeat match type of Hs with
           | context [let '(_, _) := ?o in _] => destruct o as [? [?|]]
           end; discriminate.
  - intros [= Hr _]. eapply respond_total; [|exact Hr].
    eapply scrapeSwitch_total. exact Hs.
Qed.

(** No scraper returns a nil result next to a nil error, so the handler
    never dereferences nil. *)
Lemma handleScrape_no_panic env q : (handleScrape env q).1 ≠ NilPanic.
Proof.
  unfold handleScrape.
  destruct (scrapeSwitch env _) as [[response|[[result|] [e|]]] tr] eqn:Hs;
    simpl; try done.
  - unfold scrapeSwitch in Hs.
    repeat (destruct (String.eqb _ _) in Hs; [discriminate|]).
    destruct (String.eqb _ _) in Hs; [|by inversion Hs].
    repeat match type of Hs with
           | context [let '(_, _) := ?o in _] => destruct o as [? [?|]]
           end; by inversion Hs.
  - unfold respond.
    repeat match goal with
           | |- context [if ?c then _ else _] => destruct c
           | |- context [match ?x with _ => _ end] => destruct x
           end; done.
  - exfalso. unfold scrapeSwitch in Hs.
    repeat (destruct (String.eqb _ _) in Hs;
            [unfold ScrapeRealMadridTickets, ScrapeVividSeatsRealMadridTickets,
               ScrapeSport365RealMadridMatches in Hs;
             destruct (helloVisit env), (vividVisit env), (sportPage env);
             simpl in Hs; discriminate|]).
    discriminate.
Qed.

(** C1. Every result that an operation returns (a scrape of one site, the
    merge of all sites, the normalizer or a filter applied to such a result,
    the result that the handler encodes) has [Total] equal to the number of
    its events. *)
Theorem Total_is_length (r : ScrapingResult) :
  Produced r → Total r = len (Events r).
Proof.
  induction 1 as [s now visit r e Hr|s now visit r e Hr|s now page r e Hr
                 |env r e fetched Hr|n orders r _ IH|r keyword _ IH
                 |clock r startDate endDate _ _|env q r fetched Hr].
  - eauto using hello_total.
  - eauto using vivid_total.
  - eauto using sport_total.
  - eauto using scrapeSwitch_total.
  - by apply normalize_total.
  - by apply keyword_total.
  - done.
  - eauto using handleScrape_total.
Qed.

End Invariant.

(* ===================================================================== *)
(** * parseEventDate *)
(* ===================================================================== *)






Lemma tryFormats_first now pre f post s t :
  Forall (fun g => time.Parse g s = None) pre →
  time.Parse f s = Some t →
  tryFormats now (pre ++ f :: post) s = Some (inferYear now t).
Proof.
  intros Hpre Hf. induction Hpre as [|g pre Hg _ IH]; simpl.
  - by rewrite Hf.
  - by rewrite Hg.
Qed.


(** The example that the source gives for each layout is parsed by that
    layout. *)
Example formats_parse_their_examples :
  time.Parse layoutDayMonthWeekdayTime "27 Sep Sat 4:15pm"
  = Some (time.mkTime 0 9 27 16 15 0 0 0)
  ∧ time.Parse layoutMonthDayWeekdayTime "Sep 27 Sat 4:15pm"
    = Some (time.mkTime 0 9 27 16 15 0 0 0)
  ∧ time.Parse layoutDayMonthYear "27 Sep 2025"
    = Some (time.mkTime 2025 9 27 0 0 0 0 0)
  ∧ time.Parse layoutMonthDayYear "Sep 27 2025"
    = Some (time.mkTime 2025 9 27 0 0 0 0 0)
  ∧ time.Parse layoutDayMonth "27 Sep" = Some (time.mkTime 0 9 27 0 0 0 0 0)
  ∧ time.Parse layoutMonthDay "Sep 27" = Some (time.mkTime 0 9 27 0 0 0 0 0)
  ∧ time.Parse layoutISODate "2025-09-27"
    = Some (time.mkTime 2025 9 27 0 0 0 0 0)
  ∧ time.Parse layoutDaySlashMonthYear "27/09/2025"
    = Some (time.mkTime 2025 9 27 0 0 0 0 0)
  ∧ time.Parse layoutMonthSlashDayYear "09/27/2025"
    = Some (time.mkTime 2025 9 27 0 0 0 0 0).
Proof. vm_compute. repeat split. Qed.

(** Slashed dates are read day first when both readings exist, and
    29 February of a year that is not a leap year is no date. *)
Example formats_slashed_dates :
  parseEventDate (time.mkTime 2025 6 15 12 0 0 0 0) "05/06/2025"
  = (time.mkTime 2025 6 5 0 0 0 0 0, None)
  ∧ parseEventDate (time.mkTime 2025 6 15 12 0 0 0 0) "01/13/2025"
    = (time.mkTime 2025 1 13 0 0 0 0 0, None)
  ∧ (parseEventDate (time.mkTime 2025 6 15 12 0 0 0 0) "29 Feb 2025").2
    = Some "unable to parse date: 29 Feb 2025".
Proof. vm_compute. repeat split. Qed.

(** A date without year on 29 February lands on 1 March when the year
    chosen for it is not a leap year. *)
Example leap_day_without_year :
  parseEventDate (time.mkTime 2025 1 10 9 0 0 0 0) "29 Feb"
  = (time.mkTime 2025 3 1 0 0 0 0 0, None)
  ∧ parseEventDate (time.mkTime 2028 1 10 9 0 0 0 0) "29 Feb"
    = (time.mkTime 2028 2 29 0 0 0 0 0, None).
Proof. vm_compute. repeat split. Qed.


(* ===================================================================== *)
(** * handleScrape *)
(* ===================================================================== *)

Section Handler.
Context `{Unicode} `{Edlib} `{Host}.

Lemma respond_not_500 env q result : ¬ isStatus 500 (respond env q result).
Proof.
  intros [body Hb]. unfold respond in Hb.
  repeat match type of Hb with
         | context [if ?c then _ else _] => destruct c
         | context [match ?x with _ => _ end] => destruct x
         end; discriminate.
Qed.


Lemma scrapeSwitch_all env :
  scrapeSwitch env "all"
  = match (helloOutcome env).2, (vividOutcome env).2, (sportOutcome env).2 with
    | Some e1, Some e2, Some e3 =>
        (inl (HttpError ("Failed to scrape from all sources: " +:+ e1 +:+ ", "
                         +:+ e2 +:+ ", " +:+ e3) StatusInternalServerError),
         [HelloTickets; VividSeats; Sport365])
    | _, _, _ =>
        (inr (Some {| Events := resultEvents (helloOutcome env).1
                                ++ resultEvents (vividOutcome env).1
                                ++ resultEvents (sportOutcome env).1;
                      Total := len (resultEvents (helloOutcome env).1
                                    ++ resultEvents (vividOutcome env).1
                                    ++ resultEvents (sportOutcome env).1);
                      Timestamp := Now env AtMerge;
                      SourceURL := "multiple_sources";
                      ResultSource := "all" |}, None),
         [HelloTickets; VividSeats; Sport365])
    end.
Proof.
  unfold scrapeSwitch, helloOutcome, vividOutcome, sportOutcome. simpl.
  destruct (ScrapeRealMadridTickets _ _ _) as [[r1|] [e1|]];
    destruct (ScrapeVividSeatsRealMadridTickets _ _ _) as [[r2|] [e2|]];
    destruct (ScrapeSport365RealMadridMatches _ _ _) as [[r3|] [e3|]];
    simpl; rewrite ?app_nil_r; try done; by rewrite <- ?app_assoc.
Qed.

(** What a failed scrape hands to the merge holds no event. *)
Lemma resultEvents_success :
  ∀ env,
    resultEvents (helloOutcome env).1 = successEvents (helloOutcome env)
    ∧ resultEvents (vividOutcome env).1 = successEvents (vividOutcome env)
    ∧ resultEvents (sportOutcome env).1 = successEvents (sportOutcome env).
Proof.
  intros env.
  unfold helloOutcome, vividOutcome, sportOutcome, ScrapeRealMadridTickets,
    ScrapeVividSeatsRealMadridTickets, ScrapeSport365RealMadridMatches.
  by destruct (helloVisit env), (vividVisit env), (sportPage env).
Qed.

Lemma outcomes_sameUpToErrors env env' :
  sameUpToErrors env env' →
  successEvents (helloOutcome env') = successEvents (helloOutcome env)
  ∧ successEvents (vividOutcome env') = successEvents (vividOutcome env)
  ∧ successEvents (sportOutcome env') = successEvents (sportOutcome env)
  ∧ (failed (helloOutcome env') ↔ failed (helloOutcome env))
  ∧ (failed (vividOutcome env') ↔ failed (vividOutcome env))
  ∧ (failed (sportOutcome env') ↔ failed (sportOutcome env)).
Proof.
  intros (Hh & Hv & Hs & Hnow & _).
  unfold helloOutcome, vividOutcome, sportOutcome, ScrapeRealMadridTickets,
    ScrapeVividSeatsRealMadridTickets, ScrapeSport365RealMadridMatches, failed.
  rewrite Hnow.
  split; [|split; [|split; [|split; [|split]]]].
  1, 4: by destruct (helloVisit env), (helloVisit env'); simpl in *; subst.
  1, 3: by destruct (vividVisit env), (vividVisit env'); simpl in *; subst.
  1, 2: by destruct (sportPage env), (sportPage env'); simpl in *; subst.
Qed.

Lemma respond_sameEnv env env' q result :
  Now env = Now env' → keyOrders env = keyOrders env' →
  respond env' q result = respond env q result.
Proof. intros Hn Hk. unfold respond. by rewrite Hn, Hk. Qed.

(** C4. With [source=all] the three sites are fetched, and the answer is
    the status 500 exactly when all three scrapes fail. When one succeeds,
    the handler goes on with a result whose events are those of the scrapes
    that succeeded, in the order HelloTickets, VividSeats, Sport365; that
    result is what it encodes when the request asks for no normalization
    and no filter; and the answer is the same whatever the errors of the
    scrapes that failed are. *)
Theorem scrape_all_partial_success (env : Env) (q : Query) :
  q_source q = "all" →
  (handleScrape env q).2 = [HelloTickets; VividSeats; Sport365]
  ∧ (isStatus 500 (handleScrape env q).1 ↔ allFailed env)
  ∧ (¬ allFailed env →
     ∃ merged,
       (handleScrape env q).1 = respond env q merged
       ∧ Events merged = successEvents (helloOutcome env)
                         ++ successEvents (vividOutcome env)
                         ++ successEvents (sportOutcome env)
       ∧ Total merged = len (Events merged)
       ∧ (q_normalize q ≠ "true" → q_filter q = "" → q_from q = "" → q_to q = "" →
          (handleScrape env q).1 = Encoded merged)
       ∧ ∀ env', sameUpToErrors env env' →
                 handleScrape env' q = handleScrape env q).
Proof.
  intros Hsrc.
  assert (Hh : ∀ e, handleScrape e q
    = match scrapeSwitch e "all" with
      | (inl response, fetched) => (response, fetched)
      | (inr (_, Some err), fetched) =>
          (HttpError ("Scraping failed: " +:+ err) StatusInternalServerError, fetched)
      | (inr (Some result, None), fetched) => (respond e q result, fetched)
      | (inr (None, None), fetched) => (NilPanic, fetched)
      end).
  { intros e. unfold handleScrape. by rewrite Hsrc. }
  assert (Hcase : ∀ e,
    (allFailed e ∧ isStatus 500 (handleScrape e q).1
     ∧ (handleScrape e q).2 = [HelloTickets; VividSeats; Sport365])
    ∨ (¬ allFailed e
       ∧ handleScrape e q
         = (respond e q
              {| Events := successEvents (helloOutcome e)
                           ++ successEvents (vividOutcome e)
                           ++ successEvents (sportOutcome e);
                 Total := len (successEvents (helloOutcome e)
                               ++ successEvents (vividOutcome e)
                               ++ successEvents (sportOutcome e));
                 Timestamp := Now e AtMerge;
                 SourceURL := "multiple_sources";
                 ResultSource := "all" |},
            [HelloTickets; VividSeats; Sport365]))).
  { intros e. rewrite Hh, scrapeSwitch_all.
    destruct (resultEvents_success e) as (-> & -> & ->).
    unfold allFailed, failed. simpl.
    destruct (helloOutcome e).2 as [e1|], (vividOutcome e).2 as [e2|],
      (sportOutcome e).2 as [e3|];
      first [ left; split; [done|]; split; [by eexists|done]
            | right; split; [|done]; intros (? & ? & ?); done ]. }
  destruct (Hcase env) as [(Hall & H500 & Hf)|(Hnot & Heq)].
  - split; [done|]. split; [done|]. done.
  - rewrite Heq. simpl. split; [done|]. split.
    + split; [|done]. intros H500. by apply respond_not_500 in H500.
    + intros _. eexists. split; [done|]. simpl. split; [done|]. split; [done|].
      split.
      { intros Hn Hf Hfrom Hto. unfold respond.
        apply String.eqb_neq in Hn. by rewrite Hn, Hf, Hfrom, Hto. }
      intros env' Hsame.
      destruct (outcomes_sameUpToErrors env env' Hsame)
        as (Eh & Ev & Es & Fh & Fv & Fs).
      destruct (Hcase env') as [(Hall & _)|(_ & Heq')].
      * destruct Hnot. unfold allFailed in *. tauto.
      * rewrite Heq', Eh, Ev, Es.
        destruct Hsame as (_ & _ & _ & Hnow & Hk).
        rewrite (respond_sameEnv env env') by done. by rewrite Hnow.
Qed.



End Handler.

(* ===================================================================== *)
(** * The team-name normalizer *)
(* ===================================================================== *)

Lemma Qlt_bool_iff x y : Qlt_bool x y = true ↔ (x < y)%Q.
Proof.
  unfold Qlt_bool. rewrite negb_true_iff, <- not_true_iff_false, Qle_bool_iff.
  split; [apply Qnot_le_lt|apply Qlt_not_le].
Qed.

Lemma Qlt_bool_false x y : Qlt_bool x y = false ↔ (y <= x)%Q.
Proof.
  rewrite <- not_true_iff_false, Qlt_bool_iff.
  split; [apply Qnot_lt_le|apply Qle_not_lt].
Qed.

Section NormalizerLemmas.
Context `{Unicode} `{Edlib}.





(** What the loop leaves in [bestMatch] and [bestScore]: what it started
    with, when no key beats the start and the threshold; else the name and
    the score of a key whose score no other key exceeds. *)
Lemma scoreLoop_spec n teamName order :
  ∀ best,
    (scoreLoop n teamName order best = best
     ∧ ∀ a, a ∈ order →
            ¬ ((best.2 < maxScore teamName a)%Q
               ∧ (similarityThreshold n <= maxScore teamName a)%Q))
    ∨ (∃ a, a ∈ order
            ∧ scoreLoop n teamName order best
              = (default "" (teamMappings n !! a), maxScore teamName a)
            ∧ (similarityThreshold n <= maxScore teamName a)%Q
            ∧ (best.2 < maxScore teamName a)%Q
            ∧ ∀ a', a' ∈ order → (maxScore teamName a' <= maxScore teamName a)%Q).
Proof.
  induction order as [|x order IH]; intros best; simpl.
  { left. split; [done|]. intros a Ha. by apply elem_of_nil in Ha. }
  assert (Hstep : scoreStep n teamName x best
                  = if Qlt_bool best.2 (maxScore teamName x)
                       && Qle_bool (similarityThreshold n) (maxScore teamName x)
                    then (default "" (teamMappings n !! x), maxScore teamName x)
                    else best) by done.
  rewrite Hstep. clear Hstep.
  destruct (Qlt_bool best.2 (maxScore teamName x)) eqn:Hlt; simpl.
  - destruct (Qle_bool (similarityThreshold n) (maxScore teamName x)) eqn:Hge.
    + apply Qlt_bool_iff in Hlt. apply Qle_bool_iff in Hge. right.
      destruct (IH (default "" (teamMappings n !! x), maxScore teamName x))
        as [[Heq Hno]|(a & Ha & Heq & Hthr & Hbeat & Hmax)]; simpl in *.
      * exists x. split; [apply list_elem_of_here|]. split; [done|].
        split; [done|]. split; [done|].
        intros a' [->|Ha']%elem_of_cons; [lra|].
        destruct (Qlt_le_dec (maxScore teamName x) (maxScore teamName a'))
          as [Hc|Hc]; [|done].
        exfalso. apply (Hno a' Ha'). split; [done|lra].
      * exists a. split; [by apply list_elem_of_further|]. split; [done|].
        split; [done|]. split; [lra|].
        intros a' [->|Ha']%elem_of_cons; [lra|by apply Hmax].
    + apply not_true_iff_false in Hge. rewrite Qle_bool_iff in Hge.
      destruct (IH best) as [[Heq Hno]|(a & Ha & Heq & Hthr & Hbeat & Hmax)].
      * left. split; [done|].
        intros a' [->|Ha']%elem_of_cons; [tauto|by apply Hno].
      * right. exists a. split; [by apply list_elem_of_further|].
        split; [done|]. split; [done|]. split; [done|].
        intros a' [->|Ha']%elem_of_cons; [|by apply Hmax].
        destruct (Qlt_le_dec (maxScore teamName a) (maxScore teamName x))
          as [Hc|Hc]; [|done].
        exfalso. apply Hge. lra.
  - apply Qlt_bool_false in Hlt.
    destruct (IH best) as [[Heq Hno]|(a & Ha & Heq & Hthr & Hbeat & Hmax)].
    + left. split; [done|].
      intros a' [->|Ha']%elem_of_cons; [|by apply Hno].
      intros [Hc _]. lra.
    + right. exists a. split; [by apply list_elem_of_further|].
      split; [done|]. split; [done|]. split; [done|].
      intros a' [->|Ha']%elem_of_cons; [lra|by apply Hmax].
Qed.


Lemma normalizeTeamName_unfold n order teamName :
  normalizeTeamName n order teamName
  = match teamMappings n !! cleanTeamName teamName with
    | Some normalized => normalized
    | None =>
        if negb (String.eqb (findBestSimilarTeam n order (cleanTeamName teamName)) "")
        then findBestSimilarTeam n order (cleanTeamName teamName)
        else strings.Title teamName
    end.
Proof. reflexivity. Qed.



End NormalizerLemmas.

Section NormalizerClaims.
Context `{Unicode} `{Edlib}.



(** C6. [normalizeTeamName] looks up the lower-cased name, with the suffix
    tokens removed and trimmed, in the alias table and returns the entry
    when there is one. "Real Madrid CF" and "madrid" give "Real Madrid",
    and "FC Barcelona" gives "Barcelona", whatever the order of the keys
    and the scores. *)
Theorem normalizeTeamName_exact (order : list string) :
  (∀ n teamName canonical,
     teamMappings n !! cleanTeamName teamName = Some canonical →
     normalizeTeamName n order teamName = canonical)
  ∧ cleanTeamName "Real Madrid CF" = "real madrid"
  ∧ cleanTeamName "madrid" = "madrid"
  ∧ cleanTeamName "FC Barcelona" = "barcelona"
  ∧ normalizeTeamName NewTeamNameNormalizer order "Real Madrid CF" = "Real Madrid"
  ∧ normalizeTeamName NewTeamNameNormalizer order "madrid" = "Real Madrid"
  ∧ normalizeTeamName NewTeamNameNormalizer order "FC Barcelona" = "Barcelona".
Proof.
  split.
  { intros n teamName canonical Hhit.
    by rewrite normalizeTeamName_unfold, Hhit. }
  split; [vm_compute; reflexivity|]. split; [vm_compute; reflexivity|].
  split; [vm_compute; reflexivity|]. split; [vm_compute; reflexivity|].
  split; vm_compute; reflexivity.
Qed.




End NormalizerClaims.

(* ===================================================================== *)
(** * The statements at the concrete request *)
(* ===================================================================== *)


Lemma Total_is_length_witness :
  @Produced asciiOnly exactScores sampleMerged ∧ Total sampleMerged = 1.
Proof.
  assert (Hp : @Produced asciiOnly exactScores sampleMerged).
  { apply (@produced_merge asciiOnly exactScores sampleEnv sampleMerged None
             [HelloTickets; VividSeats; Sport365]).
    vm_compute. reflexivity. }
  split; [exact Hp|].
  exact (@Total_is_length asciiOnly exactScores sampleMerged Hp).
Defined.


Lemma FilterByDate_keeps_witness :
  Events (FilterByDate (fun _ => noon) sampleResult newYear2025 newYearsEve2025)
  = List.filter (keptByDate noon newYear2025 newYearsEve2025) sampleEvents
  ∧ List.filter (keptByDate noon newYear2025 newYearsEve2025) sampleEvents
    = List.firstn 2 sampleEvents.
Proof.
  destruct (FilterByDate_keeps (fun _ => noon) sampleResult newYear2025
              newYearsEve2025) as (_ & _ & Hconst & _).
  split; [exact (Hconst noon (fun _ => eq_refl))|].
  vm_compute. reflexivity.
Defined.

Lemma FilterByKeyword_idempotent_witness :
  strings.Contains (@strings.ToLower asciiOnly "Real Madrid vs Getafe")
    (@strings.ToLower asciiOnly "MADRID") = true
  ∧ Events (@FilterByKeyword asciiOnly sampleResult "SEVILLA")
    = List.skipn 2 sampleEvents.
Proof.
  destruct (@FilterByKeyword_idempotent asciiOnly sampleResult "MADRID")
    as (_ & _ & Hfold).
  destruct (@FilterByKeyword_idempotent asciiOnly sampleResult "SEVILLA")
    as (Hevents & _ & _).
  split.
  - apply (Hfold "Real Madrid vs Getafe"); [reflexivity|reflexivity|].
    exists "Real ", "Madrid", " vs Getafe". split; reflexivity.
  - rewrite Hevents. vm_compute. reflexivity.
Defined.

Lemma scrape_all_partial_success_witness :
  q_source allQuery = "all"
  ∧ (@handleScrape asciiOnly exactScores sampleEnv allQuery).2
    = [HelloTickets; VividSeats; Sport365]
  ∧ ¬ isStatus 500 (@handleScrape asciiOnly exactScores sampleEnv allQuery).1.
Proof.
  destruct (@scrape_all_partial_success asciiOnly exactScores sampleEnv allQuery
              eq_refl) as (Hfetched & H500 & _).
  split; [reflexivity|]. split; [exact Hfetched|].
  intros Hs. apply H500 in Hs. destruct Hs as (Hhello & _).
  apply Hhello. vm_compute. reflexivity.
Defined.


Lemma normalizeTeamName_exact_witness :
  @normalizeTeamName asciiOnly exactScores NewTeamNameNormalizer tableOrder
    "Sevilla FC" = "Sevilla".
Proof.
  destruct (@normalizeTeamName_exact asciiOnly exactScores tableOrder)
    as (Hhit & _).
  apply Hhit. vm_compute. reflexivity.
Defined.



(* ===================================================================== *)
(** * Where the specification and the code part *)
(* ===================================================================== *)




(* ===================================================================== *)
(** * Further properties: truncate *)
(* ===================================================================== *)

Lemma substring_prefix n s :
  (n ≤ String.length s)%nat →
  ∃ rest, s = String.substring 0 n s +:+ rest
          ∧ String.length (String.substring 0 n s) = n.
Proof.
  revert s. induction n as [|n IH]; intros s Hn.
  - exists s. by destruct s.
  - destruct s as [|c s]; simpl in Hn; [lia|].
    destruct (IH s) as (rest & Hs & Hlen); [lia|].
    exists rest. split.
    + change (String c s = String c (String.substring 0 n s +:+ rest)).
      by f_equal.
    + change (S (String.length (String.substring 0 n s)) = S n). by f_equal.
Qed.

Lemma length_append (a b : string) :
  String.length (a +:+ b) = (String.length a + String.length b)%nat.
Proof. induction a as [|c a IH]; simpl; [done|]. by rewrite IH. Qed.

(** X1. For a budget of at least three bytes, [truncate] returns a string
    that fits and leaves it as it is; a longer string is cut to the budget:
    its first [maxLen - 3] bytes followed by three dots. Truncating again
    changes nothing. *)
Theorem truncate_fits (s : string) (maxLen : Z) :
  3 <= maxLen →
  (Z.of_nat (String.length s) <= maxLen → truncate s maxLen = s)
  ∧ (maxLen < Z.of_nat (String.length s) →
     ∃ kept dropped,
       s = kept +:+ dropped
       ∧ Z.of_nat (String.length kept) = maxLen - 3
       ∧ truncate s maxLen = kept +:+ "...")
  ∧ Z.of_nat (String.length (truncate s maxLen))
    = Z.min (Z.of_nat (String.length s)) maxLen
  ∧ truncate (truncate s maxLen) maxLen = truncate s maxLen.
Proof.
  intros Hmax.
  assert (Hfit : Z.of_nat (String.length s) <= maxLen → truncate s maxLen = s).
  { intros Hs. unfold truncate. by rewrite (proj2 (Z.leb_le _ _) Hs). }
  assert (Hcut : maxLen < Z.of_nat (String.length s) →
     ∃ kept dropped,
       s = kept +:+ dropped
       ∧ Z.of_nat (String.length kept) = maxLen - 3
       ∧ truncate s maxLen = kept +:+ "...").
  { intros Hs. unfold truncate. rewrite (proj2 (Z.leb_gt _ _) Hs).
    destruct (substring_prefix (Z.to_nat (maxLen - 3)) s) as (rest & Heq & Hlen);
      [lia|].
    exists (String.substring 0 (Z.to_nat (maxLen - 3)) s), rest.
    split; [done|]. split; [lia|done]. }
  assert (Hlen : Z.of_nat (String.length (truncate s maxLen))
                 = Z.min (Z.of_nat (String.length s)) maxLen).
  { destruct (Z.le_gt_cases (Z.of_nat (String.length s)) maxLen) as [Hs|Hs].
    - rewrite Hfit by done. lia.
    - destruct (Hcut Hs) as (kept & dropped & _ & Hk & ->).
      rewrite length_append. simpl. lia. }
  split; [done|]. split; [done|]. split; [done|].
  unfold truncate at 1. rewrite (proj2 (Z.leb_le _ _)); [done|lia].
Qed.

(* ===================================================================== *)
(** * Further properties: the scrapers *)
(* ===================================================================== *)

Section ScraperProperties.
Context `{Unicode}.

(** X2. Each scraper turns the elements of the page into events in page
    order, leaving out exactly the elements without a link: an element with
    a link gives an event whatever its texts are. When the page cannot be
    fetched, HelloTickets and VividSeats return no result and Sport365 a
    result without events, each next to an error. *)
Theorem scrapers_keep_linked_elements :
  (∀ s e, parseTicketEvent s e = None ↔ hello_href e = "")
  ∧ (∀ s e, parseVividSeatsTicketEvent s e = None ↔ vivid_href e = "")
  ∧ (∀ s e, parseSport365SelectionEvent s e = None ↔ sport_href e = "")
  ∧ (∀ s now elements,
       ∃ r, ScrapeRealMadridTickets s now (Visited elements) = (Some r, None)
            ∧ Events r = omap (parseTicketEvent s) elements
            ∧ length (Events r)
              = length (List.filter (fun e => negb (String.eqb (hello_href e) ""))
                          elements))
  ∧ (∀ s now elements,
       ∃ r, ScrapeVividSeatsRealMadridTickets s now (Visited elements)
            = (Some r, None)
            ∧ Events r = omap (parseVividSeatsTicketEvent s) elements
            ∧ length (Events r)
              = length (List.filter (fun e => negb (String.eqb (vivid_href e) ""))
                          elements))
  ∧ (∀ s now rows,
       ∃ r, ScrapeSport365RealMadridMatches s now (Rendered rows) = (Some r, None)
            ∧ Events r = omap (parseSport365SelectionEvent s) rows
            ∧ length (Events r)
              = length (List.filter (fun e => negb (String.eqb (sport_href e) ""))
                          rows))
  ∧ (∀ s v sp now err,
       (ScrapeRealMadridTickets s now (VisitError err)).1 = None
       ∧ (ScrapeRealMadridTickets s now (VisitError err)).2 ≠ None
       ∧ (ScrapeVividSeatsRealMadridTickets v now (VisitError err)).1 = None
       ∧ (ScrapeVividSeatsRealMadridTickets v now (VisitError err)).2 ≠ None
       ∧ resultEvents (ScrapeSport365RealMadridMatches sp now (ChromeError err)).1 = []
       ∧ (ScrapeSport365RealMadridMatches sp now (ChromeError err)).2 ≠ None
       ∧ resultEvents (ScrapeSport365RealMadridMatches sp now (HTMLError err)).1 = []
       ∧ (ScrapeSport365RealMadridMatches sp now (HTMLError err)).2 ≠ None).
Proof.
  assert (Hcount : ∀ E (parse : E → option TicketEvent) (href : E → string),
            (∀ e, parse e = None ↔ href e = "") →
            ∀ elements,
              length (omap parse elements)
              = length (List.filter (fun e => negb (String.eqb (href e) "")) elements)).
  { intros E parse href Hp elements.
    induction elements as [|e elements IH]; [done|].
    change (length (match parse e with
                    | Some y => y :: omap parse elements
                    | None => omap parse elements
                    end)
            = length (if negb (String.eqb (href e) "")
                      then e :: List.filter (fun e => negb (String.eqb (href e) ""))
                                  elements
                      else List.filter (fun e => negb (String.eqb (href e) ""))
                             elements)).
    destruct (parse e) eqn:Hpe, (String.eqb (href e) "") eqn:He; simpl.
    - apply String.eqb_eq, Hp in He. congruence.
    - by rewrite IH.
    - exact IH.
    - apply Hp, String.eqb_eq in Hpe. congruence. }
  assert (H1' : ∀ s e, parseTicketEvent s e = None ↔ hello_href e = "").
  { intros s e. unfold parseTicketEvent.
    destruct (String.eqb (hello_href e) "") eqn:He.
    - by apply String.eqb_eq in He.
    - by apply String.eqb_neq in He. }
  assert (H2' : ∀ s e, parseVividSeatsTicketEvent s e = None ↔ vivid_href e = "").
  { intros s e. unfold parseVividSeatsTicketEvent.
    destruct (String.eqb (vivid_href e) "") eqn:He.
    - by apply String.eqb_eq in He.
    - by apply String.eqb_neq in He. }
  assert (H3' : ∀ s e, parseSport365SelectionEvent s e = None ↔ sport_href e = "").
  { intros s e. unfold parseSport365SelectionEvent.
    destruct (String.eqb (sport_href e) "") eqn:He.
    - by apply String.eqb_eq in He.
    - by apply String.eqb_neq in He. }
  split; [done|]. split; [done|]. split; [done|].
  split; [|split; [|split]].
  - intros s now elements. eexists. split; [reflexivity|]. simpl.
    rewrite collect_spec. simpl. split; [done|]. by apply Hcount.
  - intros s now elements. eexists. split; [reflexivity|]. simpl.
    rewrite collect_spec. simpl. split; [done|]. by apply Hcount.
  - intros s now rows. eexists. split; [reflexivity|]. simpl.
    rewrite collect_spec. simpl. split; [done|]. by apply Hcount.
  - intros s v sp now err. simpl. by repeat split.
Qed.


End ScraperProperties.

(* ===================================================================== *)
(** * Further properties: the filters together *)
(* ===================================================================== *)

Lemma filter_sublist {A} (p : A → bool) (l : list A) : sublist (List.filter p l) l.
Proof.
  induction l as [|x l IH]; simpl; [constructor|].
  destruct (p x); by constructor.
Qed.

Lemma filter_comm {A} (p q : A → bool) (l : list A) :
  List.filter p (List.filter q l) = List.filter q (List.filter p l).
Proof.
  induction l as [|x l IH]; simpl; [done|].
  destruct (q x) eqn:Hq, (p x) eqn:Hp; simpl; rewrite ?Hq, ?Hp, IH; done.
Qed.

Lemma filter_implied {A} (p q : A → bool) (l : list A) :
  (∀ x, q x = true → p x = true) →
  List.filter q (List.filter p l) = List.filter q l.
Proof.
  intros Himp. induction l as [|x l IH]; simpl; [done|].
  destruct (p x) eqn:Hp; simpl; [by rewrite IH|].
  destruct (q x) eqn:Hq; [|done]. apply Himp in Hq. congruence.
Qed.

Lemma keptFrom_sublist clock startDate endDate events :
  ∀ i, sublist (keptFrom clock startDate endDate i events) events.
Proof.
  induction events as [|event events IH]; intros i.
  - unfold keptFrom. simpl. constructor.
  - rewrite keptFrom_cons.
    destruct (keptByDate _ _ _ event); simpl; constructor; apply IH.
Qed.

Lemma keptFrom_const clock now startDate endDate events :
  (∀ i, clock i = now) →
  ∀ i, keptFrom clock startDate endDate i events
       = List.filter (keptByDate now startDate endDate) events.
Proof.
  intros Hclock. induction events as [|event events IH]; intros i; [done|].
  rewrite keptFrom_cons, IH, Hclock. simpl.
  by destruct (keptByDate now startDate endDate event).
Qed.

Lemma keptFrom_ext clock startDate endDate (p : TicketEvent → bool) events :
  (∀ i event, event ∈ events →
              keptByDate (clock i) startDate endDate event = p event) →
  ∀ i, keptFrom clock startDate endDate i events = List.filter p events.
Proof.
  induction events as [|event events IH]; intros Hp i; [done|].
  rewrite keptFrom_cons, IH, Hp; [|apply list_elem_of_here|].
  - simpl. by destruct (p event).
  - intros j ev Hev. apply Hp. by apply list_elem_of_further.
Qed.

Lemma FilterByDate_events clock r startDate endDate :
  Events (FilterByDate clock r startDate endDate)
  = keptFrom clock startDate endDate 0 (Events r).
Proof. unfold FilterByDate. simpl. by rewrite dateLoop_spec. Qed.

Lemma FilterByDate_eq clock r startDate endDate events :
  Events (FilterByDate clock r startDate endDate) = events →
  FilterByDate clock r startDate endDate
  = {| Events := events; Total := len events; Timestamp := Timestamp r;
       SourceURL := SourceURL r; ResultSource := ResultSource r |}.
Proof. intros <-. reflexivity. Qed.

Lemma rejected_spec now s :
  rejected s = match (parseEventDate now s).2 with Some _ => true | None => false end.
Proof.
  unfold rejected, parseEventDate. generalize formats. intros fs.
  induction fs as [|f fs IH]; simpl; [done|].
  destruct (time.Parse f s); [done|]. exact IH.
Qed.

Section FilterProperties.
Context `{Unicode}.

(** X4. The two filters return events of the result they are given, in the
    order they have there and none twice as often; the time stamp, the
    source URL and the source of the result are kept. *)
Theorem filters_return_sublists (r : ScrapingResult) (keyword : string)
    (clock : nat → time.Time) (startDate endDate : time.Time) :
  sublist (Events (FilterByKeyword r keyword)) (Events r)
  ∧ sublist (Events (FilterByDate clock r startDate endDate)) (Events r)
  ∧ Timestamp (FilterByKeyword r keyword) = Timestamp r
  ∧ SourceURL (FilterByKeyword r keyword) = SourceURL r
  ∧ ResultSource (FilterByKeyword r keyword) = ResultSource r
  ∧ Timestamp (FilterByDate clock r startDate endDate) = Timestamp r
  ∧ SourceURL (FilterByDate clock r startDate endDate) = SourceURL r
  ∧ ResultSource (FilterByDate clock r startDate endDate) = ResultSource r.
Proof.
  split; [|split].
  - rewrite FilterByKeyword_events.
    destruct (String.eqb keyword ""); [done|apply filter_sublist].
  - rewrite FilterByDate_events. apply keptFrom_sublist.
  - unfold FilterByKeyword. by destruct (String.eqb keyword "").
Qed.

(** X5. For one reading of the clock, filtering by keyword and filtering by
    date can be done in either order: the two results are the same. *)
Theorem filters_commute (r : ScrapingResult) (keyword : string)
    (clock : nat → time.Time) (now startDate endDate : time.Time) :
  (∀ i, clock i = now) →
  FilterByDate clock (FilterByKeyword r keyword) startDate endDate
  = FilterByKeyword (FilterByDate clock r startDate endDate) keyword.
Proof.
  intros Hclock.
  rewrite (FilterByDate_eq clock (FilterByKeyword r keyword) startDate endDate
             (List.filter (keptByDate now startDate endDate)
                (Events (FilterByKeyword r keyword))))
    by (rewrite FilterByDate_events; by apply keptFrom_const).
  rewrite (FilterByDate_eq clock r startDate endDate
             (List.filter (keptByDate now startDate endDate) (Events r)))
    by (rewrite FilterByDate_events; by apply keptFrom_const).
  unfold FilterByKeyword. destruct (String.eqb keyword ""); [done|].
  simpl. rewrite !keywordLoop_spec. simpl. by rewrite filter_comm.
Qed.

End FilterProperties.

(** X6. For one reading of the clock, filtering by a date range and then by
    a range inside it gives what filtering by the inner range alone gives;
    in particular filtering twice by the same range changes nothing. *)
Theorem FilterByDate_narrowing (r : ScrapingResult) (clock : nat → time.Time)
    (now outerStart outerEnd innerStart innerEnd : time.Time) :
  (∀ i, clock i = now) →
  time.UnixNano outerStart <= time.UnixNano innerStart →
  time.UnixNano innerEnd <= time.UnixNano outerEnd →
  FilterByDate clock (FilterByDate clock r outerStart outerEnd) innerStart innerEnd
  = FilterByDate clock r innerStart innerEnd.
Proof.
  intros Hclock Hs He.
  rewrite (FilterByDate_eq clock r outerStart outerEnd
             (List.filter (keptByDate now outerStart outerEnd) (Events r)))
    by (rewrite FilterByDate_events; by apply keptFrom_const).
  rewrite (FilterByDate_eq clock r innerStart innerEnd
             (List.filter (keptByDate now innerStart innerEnd) (Events r)))
    by (rewrite FilterByDate_events; by apply keptFrom_const).
  erewrite FilterByDate_eq; [reflexivity|].
  rewrite FilterByDate_events. simpl.
  rewrite (keptFrom_const clock now) by done.
  apply filter_implied. intros event. unfold keptByDate.
  destruct (parseEventDate now (DateTime event)) as [t [e|]]; [done|].
  rewrite !andb_true_iff, !Z.leb_le. lia.
Qed.

(** X7. When the end of the range lies before its start, [FilterByDate]
    keeps the events whose date string no layout parses, and only those,
    whatever the clock reads. *)
Theorem FilterByDate_empty_range (r : ScrapingResult) (clock : nat → time.Time)
    (startDate endDate : time.Time) :
  time.UnixNano endDate < time.UnixNano startDate →
  Events (FilterByDate clock r startDate endDate)
  = List.filter (fun event => rejected (DateTime event)) (Events r).
Proof.
  intros Hempty. rewrite FilterByDate_events.
  apply (keptFrom_ext clock). intros i event _.
  rewrite (rejected_spec (clock i)). unfold keptByDate.
  destruct (parseEventDate (clock i) (DateTime event)) as [t [e|]]; simpl; [done|].
  apply andb_false_iff.
  destruct (Z.le_gt_cases (time.UnixNano startDate) (time.UnixNano t)).
  - right. apply Z.leb_gt. lia.
  - left. apply Z.leb_gt. lia.
Qed.

Lemma tryFormats_written_year now now' fs s :
  (∀ f t, In f fs → time.Parse f s = Some t → time.Year t ≠ 0) →
  tryFormats now fs s = tryFormats now' fs s.
Proof.
  intros Hy. induction fs as [|f fs IH]; simpl; [done|].
  destruct (time.Parse f s) as [t|] eqn:Hf.
  - unfold inferYear.
    by rewrite (proj2 (Z.eqb_neq _ _) (Hy f t (or_introl eq_refl) Hf)).
  - apply IH. intros g t Hg. apply Hy. by right.
Qed.

(** X8. When none of the nine layouts parses the date string of an event
    to the year 0 (every date is written with its year, or is no date), the
    result of [FilterByDate] does not depend on the clock. *)
Theorem FilterByDate_clock_independent (r : ScrapingResult)
    (clock clock' : nat → time.Time) (startDate endDate : time.Time) :
  (∀ event f t, event ∈ Events r → In f formats →
                time.Parse f (DateTime event) = Some t → time.Year t ≠ 0) →
  FilterByDate clock r startDate endDate = FilterByDate clock' r startDate endDate.
Proof.
  intros Hyear.
  rewrite (FilterByDate_eq clock' r startDate endDate
             (List.filter (keptByDate (clock' 0%nat) startDate endDate) (Events r))).
  - apply FilterByDate_eq. rewrite FilterByDate_events.
    apply (keptFrom_ext clock). intros i event Hin.
    unfold keptByDate, parseEventDate.
    rewrite (tryFormats_written_year (clock i) (clock' 0%nat));
      [by destruct (tryFormats _ _ _)|].
    intros f t. exact (Hyear event f t Hin).
  - rewrite FilterByDate_events.
    apply (keptFrom_ext clock'). intros i event Hin.
    unfold keptByDate, parseEventDate.
    rewrite (tryFormats_written_year (clock' i) (clock' 0%nat));
      [by destruct (tryFormats _ _ _)|].
    intros f t. exact (Hyear event f t Hin).
Qed.

(* ===================================================================== *)
(** * Further properties: dates without a year *)
(* ===================================================================== *)

(** X9. A date string that the first layout to parse it reads without a
    year is given its next occurrence: on a valid current date, the date
    returned is today's or a later one, and at most the same day of next
    year. *)
Theorem inferred_year_next_occurrence (now : time.Time) (s : string)
    (pre : list time.Layout) (f : time.Layout) (post : list time.Layout)
    (t : time.Time) :
  formats = pre ++ f :: post →
  Forall (fun g => time.Parse g s = None) pre →
  time.Parse f s = Some t →
  time.Year t = 0 →
  1 <= time.Day now <= time.daysIn (time.Month now) (time.Year now) →
  (parseEventDate now s).2 = None
  ∧ dateLe now (parseEventDate now s).1
  ∧ dateLe (parseEventDate now s).1
      (time.mkTime (time.Year now + 1) (time.Month now) (time.Day now) 0 0 0 0 0).
Proof.
  intros Hfs Hpre Hf Hy Hvalid. unfold parseEventDate.
  rewrite Hfs, (tryFormats_first now pre f post s t) by done. simpl.
  split; [done|].
  assert (Hfeb : time.Month now = 2 → time.Day now <= 29).
  { intros Hm. rewrite Hm in Hvalid. unfold time.daysIn in Hvalid. simpl in Hvalid.
    destruct (time.isLeap (time.Year now)); lia. }
  destruct Hvalid as [Hday _].
  unfold inferYear, time.AddDate, dateLe. rewrite Hy. simpl.
  destruct (time.Month t <? time.Month now) eqn:Hm;
    [apply Z.ltb_lt in Hm|apply Z.ltb_ge in Hm];
    destruct (time.Month t =? time.Month now) eqn:Hm';
    [apply Z.eqb_eq in Hm'|apply Z.eqb_neq in Hm'
    |apply Z.eqb_eq in Hm'|apply Z.eqb_neq in Hm'];
    destruct (time.Day t <? time.Day now) eqn:Hd;
    [apply Z.ltb_lt in Hd|apply Z.ltb_ge in Hd|apply Z.ltb_lt in Hd
    |apply Z.ltb_ge in Hd|apply Z.ltb_lt in Hd|apply Z.ltb_ge in Hd
    |apply Z.ltb_lt in Hd|apply Z.ltb_ge in Hd];
    simpl;
    destruct (time.Month t =? 2) eqn:H2;
    [apply Z.eqb_eq in H2|apply Z.eqb_neq in H2|apply Z.eqb_eq in H2
    |apply Z.eqb_neq in H2|apply Z.eqb_eq in H2|apply Z.eqb_neq in H2
    |apply Z.eqb_eq in H2|apply Z.eqb_neq in H2|apply Z.eqb_eq in H2
    |apply Z.eqb_neq in H2|apply Z.eqb_eq in H2|apply Z.eqb_neq in H2
    |apply Z.eqb_eq in H2|apply Z.eqb_neq in H2|apply Z.eqb_eq in H2
    |apply Z.eqb_neq in H2];
    simpl;
    try (destruct (time.Day t =? 29) eqn:H29;
         [apply Z.eqb_eq in H29|apply Z.eqb_neq in H29]; simpl;
         try destruct (time.isLeap _); simpl);
    lia.
Qed.

(* ===================================================================== *)
(** * Further properties: the year glued to the day *)
(* ===================================================================== *)

Lemma substring_app_l (a b : string) :
  String.substring 0 (String.length a) (a +:+ b) = a.
Proof.
  induction a as [|c a IH]; simpl; [by destruct b|].
  change (String c (String.substring 0 (String.length a) (a +:+ b)) = String c a).
  by f_equal.
Qed.

Lemma substring_app_r (a b : string) (m : nat) :
  String.substring (String.length a) m (a +:+ b) = String.substring 0 m b.
Proof. induction a as [|c a IH]; [done|]. exact IH. Qed.

Lemma substring_all (s : string) :
  String.substring 0 (String.length s) s = s.
Proof.
  induction s as [|c s IH]; [done|].
  change (String c (String.substring 0 (String.length s) s) = String c s).
  by f_equal.
Qed.

Lemma substring_length_le (n m : nat) (s : string) :
  (String.length (String.substring n m s) ≤ String.length s - n)%nat.
Proof.
  revert n m. induction s as [|c s IH]; intros n m.
  - destruct n, m; simpl; lia.
  - destruct n as [|n].
    + destruct m as [|m]; simpl; [lia|]. specialize (IH 0%nat m).
      change (S (String.length (String.substring 0 m s)) ≤ S (String.length s))%nat.
      lia.
    + exact (IH n m).
Qed.

Lemma isReasonableYear_length (year : string) :
  isReasonableYear year = true → String.length year = 4%nat.
Proof.
  unfold isReasonableYear. rewrite !orb_true_iff, !String.eqb_eq.
  intros [[[[[->| ->]| ->]| ->]| ->]| ->]; reflexivity.
Qed.

Lemma yearScan_spec (part0 dayPart : string) (k : nat) (out : string) :
  yearScan part0 dayPart k = Some out →
  ∃ i, (i < k)%nat
    ∧ isReasonableYear (String.substring i 4 dayPart) = true
    ∧ (∀ j, (i < j < k)%nat →
         isReasonableYear (String.substring j 4 dayPart) = false)
    ∧ out = part0 +:+ " " +:+ String.substring 0 i dayPart +:+ " "
            +:+ String.substring i 4 dayPart.
Proof.
  induction k as [|k IH]; [done|]. simpl.
  destruct (isReasonableYear (String.substring k 4 dayPart)) eqn:Hy.
  - intros [= <-]. exists k. split; [lia|]. split; [done|]. split; [|done].
    intros j Hj. lia.
  - intros Hs. destruct (IH Hs) as (i & Hi & Hyi & Hlast & Hout).
    exists i. split; [lia|]. split; [done|]. split; [|done].
    intros j Hj. destruct (decide (j = k)) as [->|Hne]; [done|].
    apply Hlast. lia.
Qed.

Lemma yearScan_none (part0 dayPart : string) (k : nat) :
  (∀ j, (j < k)%nat → isReasonableYear (String.substring j 4 dayPart) = false) →
  yearScan part0 dayPart k = None.
Proof.
  induction k as [|k IH]; [done|]. intros Hno. simpl.
  rewrite (Hno k) by lia. apply IH. intros j Hj. apply Hno. lia.
Qed.

Section YearProperties.
Context `{Unicode}.

(** X10. [formatDateWithYear] looks only at the first two fields of the
    date. A second field made of a day followed by a year from 2025 to 2030
    is split, giving month, day and year separated by single spaces. In
    general the answer is the input itself, or it is built from the
    rightmost year from 2025 to 2030 found anywhere in the second field:
    what precedes the year becomes the day, and what follows it and every
    further field is dropped. A date with no such year is returned as it
    is. *)
Theorem formatDateWithYear_splits_year (s : VividSeatsScraper) (dateStr : string) :
  (∀ part0 day year rest,
     strings.Fields dateStr = part0 :: (day +:+ year) :: rest →
     day ≠ "" →
     isReasonableYear year = true →
     formatDateWithYear s dateStr = part0 +:+ " " +:+ day +:+ " " +:+ year)
  ∧ (formatDateWithYear s dateStr = dateStr
     ∨ ∃ part0 dayPart rest i,
         strings.Fields dateStr = part0 :: dayPart :: rest
         ∧ isReasonableYear (String.substring i 4 dayPart) = true
         ∧ (∀ j, (i < j)%nat →
              isReasonableYear (String.substring j 4 dayPart) = false)
         ∧ formatDateWithYear s dateStr
           = part0 +:+ " " +:+ String.substring 0 i dayPart +:+ " "
             +:+ String.substring i 4 dayPart)
  ∧ ((∀ part0 dayPart rest i,
        strings.Fields dateStr = part0 :: dayPart :: rest →
        isReasonableYear (String.substring i 4 dayPart) = false) →
     formatDateWithYear s dateStr = dateStr).
Proof.
  split; [|split].
  - intros part0 day year rest Hf Hday Hyear. unfold formatDateWithYear.
    rewrite Hf. pose proof (isReasonableYear_length _ Hyear) as Hlen.
    assert (Hd : (1 ≤ String.length day)%nat).
    { destruct day; [done|simpl; lia]. }
    rewrite length_append, Hlen.
    replace (5 <=? String.length day + 4)%nat with true
      by (symmetry; apply Nat.leb_le; lia).
    replace (String.length day + 4 - 3)%nat with (S (String.length day)) by lia.
    simpl. rewrite substring_app_r, substring_app_l, <- Hlen, substring_all.
    by rewrite Hyear.
  - unfold formatDateWithYear.
    destruct (strings.Fields dateStr) as [|part0 [|dayPart rest]] eqn:Hf;
      [by left|by left|].
    destruct (5 <=? String.length dayPart)%nat; [|by left].
    destruct (yearScan part0 dayPart (String.length dayPart - 3)) as [out|] eqn:Hs;
      [|by left].
    right. destruct (yearScan_spec _ _ _ _ Hs) as (i & Hi & Hy & Hlast & ->).
    exists part0, dayPart, rest, i. split; [done|]. split; [done|].
    split; [|done]. intros j Hj.
    destruct (decide (j < String.length dayPart - 3)%nat) as [Hlt|Hge].
    { apply Hlast. lia. }
    destruct (isReasonableYear (String.substring j 4 dayPart)) eqn:Hyj; [|done].
    apply isReasonableYear_length in Hyj.
    pose proof (substring_length_le j 4 dayPart). lia.
  - intros Hno. unfold formatDateWithYear.
    destruct (strings.Fields dateStr) as [|part0 [|dayPart rest]] eqn:Hf;
      [done|done|].
    destruct (5 <=? String.length dayPart)%nat; [|done].
    rewrite yearScan_none; [done|]. intros j _. by eapply Hno.
Qed.

End YearProperties.

(* ===================================================================== *)
(** * Further properties: team names *)
(* ===================================================================== *)

Lemma lowerByte_upperByte (c : ascii) :
  strings.lowerByte (strings.upperByte c) = strings.lowerByte c.
Proof. destruct c as [[] [] [] [] [] [] [] []]; vm_compute; reflexivity. Qed.

Lemma upperByte_idem (c : ascii) :
  strings.upperByte (strings.upperByte c) = strings.upperByte c.
Proof. destruct c as [[] [] [] [] [] [] [] []]; vm_compute; reflexivity. Qed.

Lemma isSeparator_upperByte (c : ascii) :
  strings.isSeparator (strings.upperByte c) = strings.isSeparator c.
Proof. destruct c as [[] [] [] [] [] [] [] []]; vm_compute; reflexivity. Qed.

Lemma isASCIIByte_upperByte (c : ascii) :
  strings.isASCIIByte (strings.upperByte c) = strings.isASCIIByte c.
Proof. destruct c as [[] [] [] [] [] [] [] []]; vm_compute; reflexivity. Qed.

Lemma isASCII_titleFrom (prev : ascii) (s : string) :
  strings.isASCII (strings.titleFrom prev s) = strings.isASCII s.
Proof.
  revert prev. induction s as [|c s IH]; intros prev; [done|].
  change (strings.isASCIIByte (if strings.isSeparator prev
                               then strings.upperByte c else c)
          && strings.isASCII (strings.titleFrom c s)
          = strings.isASCIIByte c && strings.isASCII s).
  rewrite IH. destruct (strings.isSeparator prev); [|done].
  by rewrite isASCIIByte_upperByte.
Qed.

Lemma mapBytes_lower_titleFrom (prev : ascii) (s : string) :
  strings.mapBytes strings.lowerByte (strings.titleFrom prev s)
  = strings.mapBytes strings.lowerByte s.
Proof.
  revert prev. induction s as [|c s IH]; intros prev; [done|].
  change (String (strings.lowerByte (if strings.isSeparator prev
                                     then strings.upperByte c else c))
            (strings.mapBytes strings.lowerByte (strings.titleFrom c s))
          = String (strings.lowerByte c) (strings.mapBytes strings.lowerByte s)).
  rewrite IH. destruct (strings.isSeparator prev); [|done].
  by rewrite lowerByte_upperByte.
Qed.

Lemma titleFrom_idem (p q : ascii) (s : string) :
  strings.isSeparator p = strings.isSeparator q →
  strings.titleFrom q (strings.titleFrom p s) = strings.titleFrom p s.
Proof.
  revert p q. induction s as [|c s IH]; intros p q Hpq; [done|].
  change (String (if strings.isSeparator q
                  then strings.upperByte (if strings.isSeparator p
                                          then strings.upperByte c else c)
                  else (if strings.isSeparator p then strings.upperByte c else c))
            (strings.titleFrom (if strings.isSeparator p
                                then strings.upperByte c else c)
               (strings.titleFrom c s))
          = String (if strings.isSeparator p then strings.upperByte c else c)
              (strings.titleFrom c s)).
  rewrite <- Hpq. f_equal.
  - destruct (strings.isSeparator p); [|done]. apply upperByte_idem.
  - apply IH. destruct (strings.isSeparator p); [|done].
    by rewrite isSeparator_upperByte.
Qed.

Section NormalizerProperties.
Context `{Unicode} `{Edlib}.

Lemma ToLower_Title (s : string) :
  strings.isASCII s = true →
  strings.isASCII (strings.Title s) = true
  ∧ strings.ToLower (strings.Title s) = strings.ToLower s
  ∧ strings.Title (strings.Title s) = strings.Title s.
Proof.
  intros Hs. unfold strings.Title, strings.ToLower. rewrite Hs.
  rewrite isASCII_titleFrom, Hs. split; [done|]. split.
  - apply mapBytes_lower_titleFrom.
  - by apply titleFrom_idem.
Qed.

Lemma cleanTeamName_lower (a b : string) :
  strings.ToLower a = strings.ToLower b → cleanTeamName a = cleanTeamName b.
Proof. intros Hab. unfold cleanTeamName. by rewrite Hab. Qed.

Lemma findBestSimilarTeam_cases n order teamName :
  findBestSimilarTeam n order teamName = ""
  ∨ ∃ a, a ∈ order
      ∧ findBestSimilarTeam n order teamName = default "" (teamMappings n !! a)
      ∧ (similarityThreshold n <= maxScore teamName a)%Q
      ∧ (0 < maxScore teamName a)%Q
      ∧ ∀ a', a' ∈ order → (maxScore teamName a' <= maxScore teamName a)%Q.
Proof.
  unfold findBestSimilarTeam.
  destruct (scoreLoop_spec n teamName order ("", 0%Q))
    as [[-> _]|(a & Ha & -> & Hthr & Hpos & Hmax)]; simpl in *.
  - left. by destruct (Qle_bool _ _).
  - right. exists a. apply Qle_bool_iff in Hthr as Hb. by rewrite Hb.
Qed.

Lemma findBestSimilarTeam_none n order teamName :
  (∀ a, a ∈ order →
        ¬ ((0 < maxScore teamName a)%Q
           ∧ (similarityThreshold n <= maxScore teamName a)%Q)) →
  findBestSimilarTeam n order teamName = "".
Proof.
  intros Hno. unfold findBestSimilarTeam.
  destruct (scoreLoop_spec n teamName order ("", 0%Q))
    as [[-> _]|(a & Ha & _ & Hthr & Hpos & _)]; simpl in *.
  - by destruct (Qle_bool _ _).
  - exfalso. by apply (Hno a Ha).
Qed.

Lemma findBestSimilarTeam_empty_inv n order teamName :
  (∀ a, a ∈ order → default "" (teamMappings n !! a) ≠ "") →
  findBestSimilarTeam n order teamName = "" →
  ∀ a, a ∈ order →
       ¬ ((0 < maxScore teamName a)%Q
          ∧ (similarityThreshold n <= maxScore teamName a)%Q).
Proof.
  intros Hnames. unfold findBestSimilarTeam.
  destruct (scoreLoop_spec n teamName order ("", 0%Q))
    as [[_ Hno]|(b & Hb & -> & Htb & _)]; simpl in *.
  - intros _ a Ha. by apply Hno.
  - apply Qle_bool_iff in Htb as Hq. rewrite Hq. intros Hempty.
    by destruct (Hnames b Hb).
Qed.

Lemma normalizeTeamName_cases n order teamName :
  (∃ c, teamMappings n !! cleanTeamName teamName = Some c
        ∧ normalizeTeamName n order teamName = c)
  ∨ (teamMappings n !! cleanTeamName teamName = None
     ∧ findBestSimilarTeam n order (cleanTeamName teamName) ≠ ""
     ∧ normalizeTeamName n order teamName
       = findBestSimilarTeam n order (cleanTeamName teamName))
  ∨ (teamMappings n !! cleanTeamName teamName = None
     ∧ findBestSimilarTeam n order (cleanTeamName teamName) = ""
     ∧ normalizeTeamName n order teamName = strings.Title teamName).
Proof.
  rewrite normalizeTeamName_unfold.
  destruct (teamMappings n !! cleanTeamName teamName) as [c|]; [left; eauto|].
  right.
  destruct (String.eqb_spec (findBestSimilarTeam n order (cleanTeamName teamName)) "")
    as [Hb|Hb]; simpl; [right|left]; done.
Qed.

(** X11. The name [normalizeTeamName] returns is never made up: it is the
    table's entry for the cleaned name; or, when the cleaned name is no key,
    the entry of a key whose score is positive, reaches the threshold and is
    exceeded by the score of no key met; or else the name as given, in
    title case. *)
Theorem normalizeTeamName_best_key (n : TeamNameNormalizer)
    (order : list string) (teamName : string) :
  teamMappings n !! cleanTeamName teamName
    = Some (normalizeTeamName n order teamName)
  ∨ (teamMappings n !! cleanTeamName teamName = None
     ∧ normalizeTeamName n order teamName ≠ ""
     ∧ ∃ alias, alias ∈ order
         ∧ teamMappings n !! alias = Some (normalizeTeamName n order teamName)
         ∧ (similarityThreshold n <= maxScore (cleanTeamName teamName) alias)%Q
         ∧ (0 < maxScore (cleanTeamName teamName) alias)%Q
         ∧ ∀ other, other ∈ order →
             (maxScore (cleanTeamName teamName) other
              <= maxScore (cleanTeamName teamName) alias)%Q)
  ∨ (teamMappings n !! cleanTeamName teamName = None
     ∧ normalizeTeamName n order teamName = strings.Title teamName).
Proof.
  destruct (normalizeTeamName_cases n order teamName)
    as [(c & Hc & ->)|[(Hmiss & Hne & ->)|(Hmiss & _ & ->)]].
  - by left.
  - right. left. split; [done|]. split; [done|].
    destruct (findBestSimilarTeam_cases n order (cleanTeamName teamName))
      as [Hnone|(a & Ha & Heq & Hthr & Hpos & Hmax)]; [done|].
    exists a. split; [done|]. rewrite Heq in Hne |- *.
    split; [|done].
    destruct (teamMappings n !! a) as [c|]; simpl in *; done.
  - right. by right.
Qed.

(** X12. The key order of the map may differ from call to call; the answer
    of [findBestSimilarTeam] is the same for two orders of the same keys
    whenever the keys that reach the threshold with the greatest score all
    stand for the same team. *)
Theorem findBestSimilarTeam_order_independent (n : TeamNameNormalizer)
    (order order' : list string) (teamName : string) :
  order ≡ₚ order' →
  (∀ a b, a ∈ order → b ∈ order →
     (similarityThreshold n <= maxScore teamName a)%Q →
     (∀ c, c ∈ order → (maxScore teamName c <= maxScore teamName a)%Q) →
     (∀ c, c ∈ order → (maxScore teamName c <= maxScore teamName b)%Q) →
     default "" (teamMappings n !! a) = default "" (teamMappings n !! b)) →
  findBestSimilarTeam n order teamName = findBestSimilarTeam n order' teamName.
Proof.
  intros Hperm Htie. unfold findBestSimilarTeam.
  destruct (scoreLoop_spec n teamName order ("", 0%Q))
    as [[-> Hno]|(a & Ha & -> & Hta & Hpa & Hma)];
    destruct (scoreLoop_spec n teamName order' ("", 0%Q))
      as [[-> Hno']|(b & Hb & -> & Htb & Hpb & Hmb)]; simpl in *.
  - done.
  - exfalso. apply (Hno b); [by rewrite Hperm|done].
  - exfalso. apply (Hno' a); [by rewrite <- Hperm|done].
  - apply Qle_bool_iff in Hta as Hqa. apply Qle_bool_iff in Htb as Hqb.
    rewrite Hqa, Hqb. apply Htie; [done|by rewrite Hperm|done|done|].
    intros c Hc. apply Hmb. by rewrite <- Hperm.
Qed.


Lemma standard_names_fixed (alias c : string) :
  teamMappings NewTeamNameNormalizer !! alias = Some c →
  c ≠ ""
  ∧ (strings.isASCII c = true →
     teamMappings NewTeamNameNormalizer !! cleanTeamName c = Some c).
Proof.
  intros Hc. apply elem_of_list_to_map_2, list_elem_of_In in Hc.
  assert (Hall : forallb (fun kc : string * string =>
            negb (String.eqb kc.2 "")
            && (if strings.isASCII kc.2
                then match teamMappings NewTeamNameNormalizer !! cleanTeamName kc.2 with
                     | Some c' => String.eqb c' kc.2
                     | None => false
                     end
                else true)) standardTeamAliases = true)
    by (vm_compute; reflexivity).
  rewrite forallb_forall in Hall. specialize (Hall _ Hc). cbn [snd] in Hall.
  apply andb_true_iff in Hall as [Hne Hfix].
  apply negb_true_iff, String.eqb_neq in Hne. split; [done|].
  intros Hascii. rewrite Hascii in Hfix.
  destruct (teamMappings NewTeamNameNormalizer !! cleanTeamName c) as [c'|];
    [|done].
  apply String.eqb_eq in Hfix. by subst.
Qed.

(** X14. With the standard table, normalizing an ASCII name a second time
    changes nothing, whatever the orders in which the two calls meet the
    keys, as long as the first answer is ASCII too. *)
Theorem normalizeTeamName_idempotent (order order' : list string)
    (teamName : string) :
  order ≡ₚ mapKeys (teamMappings NewTeamNameNormalizer) →
  order' ≡ₚ mapKeys (teamMappings NewTeamNameNormalizer) →
  strings.isASCII teamName = true →
  strings.isASCII (normalizeTeamName NewTeamNameNormalizer order teamName) = true →
  normalizeTeamName NewTeamNameNormalizer order'
    (normalizeTeamName NewTeamNameNormalizer order teamName)
  = normalizeTeamName NewTeamNameNormalizer order teamName.
Proof.
  intros Hperm Hperm' Hascii Hres.
  assert (Hkey : ∀ a, a ∈ order →
            ∃ c, teamMappings NewTeamNameNormalizer !! a = Some c).
  { intros a Ha. rewrite Hperm in Ha. unfold mapKeys in Ha.
    apply list_elem_of_fmap in Ha as ([a' c] & -> & Hin).
    apply elem_of_map_to_list in Hin. by exists c. }
  assert (Hfixed : ∀ alias c,
            teamMappings NewTeamNameNormalizer !! alias = Some c →
            strings.isASCII c = true →
            normalizeTeamName NewTeamNameNormalizer order' c = c).
  { intros alias c Hc Hasc. rewrite normalizeTeamName_unfold.
    by rewrite (proj2 (standard_names_fixed alias c Hc) Hasc). }
  destruct (normalizeTeamName_cases NewTeamNameNormalizer order teamName)
    as [(c & Hc & Heq)|[(Hmiss & Hne & Heq)|(Hmiss & Hnone & Heq)]].
  - rewrite Heq in Hres |- *. by eapply Hfixed.
  - destruct (findBestSimilarTeam_cases NewTeamNameNormalizer order
                (cleanTeamName teamName))
      as [Hnone|(a & Ha & Hbest & _)]; [exfalso; exact (Hne Hnone)|].
    destruct (Hkey a Ha) as [c Hc]. rewrite Hc in Hbest.
    change (findBestSimilarTeam NewTeamNameNormalizer order
              (cleanTeamName teamName) = c) in Hbest.
    rewrite Heq, Hbest in Hres |- *. by eapply Hfixed.
  - destruct (ToLower_Title teamName Hascii) as (_ & Hlow & Htitle).
    rewrite Heq. rewrite normalizeTeamName_unfold.
    rewrite (cleanTeamName_lower _ _ Hlow), Hmiss.
    rewrite findBestSimilarTeam_none; [done|].
    intros a Ha.
    apply (findBestSimilarTeam_empty_inv NewTeamNameNormalizer order
             (cleanTeamName teamName)); [|done|by rewrite Hperm, <- Hperm'].
    intros b Hb Hempty. destruct (Hkey b Hb) as [c Hc].
    rewrite Hc in Hempty. destruct (standard_names_fixed b c Hc) as [Hnz _].
    apply Hnz. exact Hempty.
Qed.

End NormalizerProperties.

(* ===================================================================== *)
(** * Further properties: the handler's pipeline *)
(* ===================================================================== *)

Lemma fmap_Link_imap (f : nat → TicketEvent → TicketEvent) (events : list TicketEvent) :
  (∀ i e, Link (f i e) = Link e) →
  Link <$> imap f events = Link <$> events.
Proof.
  revert f. induction events as [|e events IH]; intros f Hf; [done|].
  rewrite imap_cons, !fmap_cons, Hf. f_equal. apply IH.
  intros i e'. apply Hf.
Qed.

Section PipelineProperties.
Context `{Unicode} `{Edlib}.

Lemma respond_encoded env q result r :
  respond env q result = Encoded r →
  ∃ r1 r2,
    r1 = (if String.eqb (q_normalize q) "true"
          then NormalizeScrapingResult NewTeamNameNormalizer (keyOrders env) result
          else result)
    ∧ r2 = (if negb (String.eqb (q_filter q) "")
            then FilterByKeyword r1 (q_filter q) else r1)
    ∧ (r = r2
       ∨ ∃ clock startDate endDate, r = FilterByDate clock r2 startDate endDate).
Proof.
  unfold respond. intros Hr. eexists _, _. split; [reflexivity|].
  split; [reflexivity|].
  destruct (negb (String.eqb (q_from q) "") || negb (String.eqb (q_to q) ""));
    [|left; by inversion Hr].
  destruct (if negb (String.eqb (q_from q) "") then _ else _) as [startDate|];
    [|discriminate].
  destruct (if negb (String.eqb (q_to q) "") then _ else _) as [endDate|];
    [|discriminate].
  right. eexists _, _, _. by inversion Hr.
Qed.

(** X15. When [handleScrape] answers with a result, the scrape has
    succeeded and the answer is made of the scraped events: their links
    appear in the scraped order, none added; the time stamp, the source URL
    and the source are those of the scrape; without normalization the
    events themselves are events of the scrape; and with a keyword every
    event of the answer passes the keyword test. *)
Theorem handleScrape_answers_from_scrape (env : Env) (q : Query)
    (r : ScrapingResult) (fetched : list Site) :
  handleScrape env q = (Encoded r, fetched) →
  ∃ result,
    (scrapeSwitch env (requestedSource q)).1 = inr (Some result, None)
    ∧ sublist (Link <$> Events r) (Link <$> Events result)
    ∧ Timestamp r = Timestamp result
    ∧ SourceURL r = SourceURL result
    ∧ ResultSource r = ResultSource result
    ∧ (q_normalize q ≠ "true" → sublist (Events r) (Events result))
    ∧ (q_filter q ≠ "" →
       ∀ event, event ∈ Events r →
         keywordMatches (strings.ToLower (q_filter q)) event = true).
Proof.
  unfold handleScrape. fold (requestedSource q).
  destruct (scrapeSwitch env (requestedSource q))
    as [[response|[[result|] [e|]]] tr] eqn:Hs; simpl.
  - intros [= -> _]. exfalso. unfold scrapeSwitch in Hs.
    repeat (destruct (String.eqb _ _) in Hs; [discriminate|]).
    destruct (String.eqb _ _) in Hs; [|by inversion Hs].
    repeat match type of Hs with
           | context [let '(_, _) := ?o in _] => destruct o as [? [?|]]
           end; discriminate.
  - discriminate.
  - intros [= Hr _]. exists result. split; [done|].
    destruct (respond_encoded _ _ _ _ Hr) as (r1 & r2 & H1' & H2' & Hlast).
    assert (Hr1 : Link <$> Events r1 = Link <$> Events result
                  ∧ Timestamp r1 = Timestamp result
                  ∧ SourceURL r1 = SourceURL result
                  ∧ ResultSource r1 = ResultSource result
                  ∧ (q_normalize q ≠ "true" → r1 = result)).
    { subst r1. destruct (String.eqb_spec (q_normalize q) "true") as [Hn|Hn].
      - rewrite NormalizeScrapingResult_events.
        split; [by apply fmap_Link_imap|]. done.
      - done. }
    destruct Hr1 as (Hl1 & Ht1 & Hu1 & Hs1 & Hsame).
    assert (Hr2 : sublist (Events r2) (Events r1)
                  ∧ Timestamp r2 = Timestamp r1
                  ∧ SourceURL r2 = SourceURL r1
                  ∧ ResultSource r2 = ResultSource r1
                  ∧ (q_filter q ≠ "" →
                     ∀ event, event ∈ Events r2 →
                       keywordMatches (strings.ToLower (q_filter q)) event = true)).
    { subst r2. destruct (String.eqb_spec (q_filter q) "") as [Hf|Hf]; simpl.
      - done.
      - split.
        { rewrite FilterByKeyword_events.
          destruct (String.eqb (q_filter q) ""); [done|apply filter_sublist]. }
        split; [|split; [|split]].
        + unfold FilterByKeyword. by destruct (String.eqb (q_filter q) "").
        + unfold FilterByKeyword. by destruct (String.eqb (q_filter q) "").
        + unfold FilterByKeyword. by destruct (String.eqb (q_filter q) "").
        + intros _ event Hin. rewrite FilterByKeyword_events in Hin.
          rewrite (proj2 (String.eqb_neq _ _) Hf) in Hin.
          apply list_elem_of_In, filter_In in Hin. by destruct Hin. }
    destruct Hr2 as (Hl2 & Ht2 & Hu2 & Hs2 & Hkw).
    assert (Hr3 : sublist (Events r) (Events r2)
                  ∧ Timestamp r = Timestamp r2
                  ∧ SourceURL r = SourceURL r2
                  ∧ ResultSource r = ResultSource r2).
    { destruct Hlast as [->|(clock & startDate & endDate & ->)]; [done|].
      split; [|done]. rewrite FilterByDate_events. apply keptFrom_sublist. }
    destruct Hr3 as (Hl3 & Ht3 & Hu3 & Hs3).
    split.
    { rewrite <- Hl1. apply fmap_sublist. by etrans. }
    split; [congruence|]. split; [congruence|]. split; [congruence|]. split.
    + intros Hn. rewrite <- (Hsame Hn). by etrans.
    + intros Hf event Hin. apply (Hkw Hf).
      eapply elem_of_sublist; [exact Hin|exact Hl3].
  - discriminate.
  - discriminate.
Qed.

End PipelineProperties.

(* ===================================================================== *)
(** * Further properties: date strings under normalization *)
(* ===================================================================== *)

Lemma v_patterns_begin_with_v (prev : option ascii) (c : ascii) (s : string) :
  Ascii.eqb c "v" && negb (regexp.isWord prev) = false →
  regexp.matchPrefix vsPattern prev (String c s) = None
  ∧ regexp.matchPrefix vPattern prev (String c s) = None.
Proof.
  intros Hv. unfold regexp.matchPrefix, vsPattern, vPattern.
  cbn [regexp.matchAt regexp.lit regexp.head regexp.isWord].
  rewrite (Ascii.eqb_sym "v" c).
  destruct (Ascii.eqb_spec c "v") as [->|Hne].
  - simpl in Hv. apply negb_false_iff in Hv. rewrite Hv.
    split; reflexivity.
  - by destruct (xorb _ _).
Qed.

Lemma replaceFrom_unchanged (r : regexp.re) (repl : string) :
  (∀ prev c s, Ascii.eqb c "v" && negb (regexp.isWord prev) = false →
               regexp.matchPrefix r prev (String c s) = None) →
  ∀ s prev, noWordBeginsWithV prev s = true →
            regexp.replaceFrom r repl 0 prev s = s.
Proof.
  intros Hr. induction s as [|c s IH]; intros prev Hs; [done|].
  simpl in Hs. apply andb_true_iff in Hs as [Hc Hs].
  apply negb_true_iff in Hc.
  cbn [regexp.replaceFrom]. rewrite (Hr prev c s Hc). f_equal. by apply IH.
Qed.

Section DateTimeProperties.
Context `{Unicode} `{Edlib}.

(** X16. Normalization leaves a date string in which no word begins with a
    lower-case [v] as it is, up to the white space around it; the date of
    such an event is then parsed after normalization as it is before. *)
Theorem normalizeDateTime_keeps_dates (n : TeamNameNormalizer)
    (orders : list string * list string) (event : TicketEvent) :
  noWordBeginsWithV None (strings.TrimSpace (DateTime event)) = true →
  normalizeDateTime n (DateTime event) = strings.TrimSpace (DateTime event)
  ∧ DateTime (NormalizeEvent n orders event) = strings.TrimSpace (DateTime event).
Proof.
  intros Hv.
  assert (Heq : normalizeDateTime n (DateTime event)
                = strings.TrimSpace (DateTime event)).
  { unfold normalizeDateTime, regexp.ReplaceAllString.
    rewrite (replaceFrom_unchanged vsPattern "vs"); [|
      intros prev c s Hc; apply (v_patterns_begin_with_v prev c s Hc)|done].
    apply replaceFrom_unchanged; [|done].
    intros prev c s Hc. apply (v_patterns_begin_with_v prev c s Hc). }
  split; [done|]. exact Heq.
Qed.

End DateTimeProperties.

(* ===================================================================== *)
(** * Further properties: files and summaries *)
(* ===================================================================== *)

Section FileProperties.
Context `{Unicode} `{Host}.

(** X17. [SaveToFile] writes at most one file, under the name it is given.
    It returns no error only when it has written the rendered result (the
    indented JSON or the table) and the write has succeeded; an error of
    the encoder or an unsupported format leaves the file system alone. *)
Theorem SaveToFile_writes_once (r : ScrapingResult) (filename format : string) :
  ((SaveToFile r filename format).2 = []
   ∨ ∃ content,
       (SaveToFile r filename format).2 = [(filename, content)]
       ∧ (SaveToFile r filename format).1 = os_WriteFile filename content
       ∧ (content = FormatAsTable r ∨ json_Marshal r true = (content, None)))
  ∧ ((SaveToFile r filename format).1 = None →
     (SaveToFile r filename format).2 ≠ [])
  ∧ (∀ content err,
       strings.ToLower format = "json" →
       json_Marshal r true = (content, Some err) →
       SaveToFile r filename format
       = (Some ("failed to marshal JSON: " +:+ err), [])).
Proof.
  unfold SaveToFile, FormatAsJSON.
  destruct (String.eqb_spec (strings.ToLower format) "json") as [Hj|Hj].
  - destruct (json_Marshal r true) as [data [err|]] eqn:Hm; simpl.
    + split; [by left|]. split; [done|]. by intros content err' _ [= _ <-].
    + split; [right; exists data; eauto|]. split; [done|]. by intros.
  - destruct (String.eqb _ "table" || String.eqb _ "txt"); simpl.
    + split; [right; eexists; eauto|]. by split.
    + split; [by left|]. by split.
Qed.

End FileProperties.

Lemma string_app_assoc (a b c : string) : (a +:+ b) +:+ c = a +:+ b +:+ c.
Proof.
  induction a as [|x a IH]; [done|].
  change (String x ((a +:+ b) +:+ c) = String x (a +:+ b +:+ c)). by f_equal.
Qed.

Lemma List_last_cons {A} (rest : list A) :
  ∀ x d, List.last (x :: rest) d = List.last rest x.
Proof.
  induction rest as [|y rest IH]; intros x d; [done|].
  change (List.last (y :: rest) d = List.last (y :: rest) x).
  by rewrite !IH.
Qed.

Lemma lookup_List_last {A} (rest : list A) :
  ∀ first, (first :: rest) !! length rest = Some (List.last rest first).
Proof.
  induction rest as [|x rest IH]; intros first; [done|].
  change ((x :: rest) !! length rest = Some (List.last (x :: rest) first)).
  by rewrite IH, List_last_cons.
Qed.

Lemma sampleLoop_spec (events : list TicketEvent) :
  ∀ n i sb,
    (i + n ≤ length events)%nat →
    sampleLoop events i n sb
    = Some (sb +:+ foldr (fun event rows => sampleLine event +:+ rows) ""
                     (take n (drop i events))).
Proof.
  induction n as [|n IH]; intros i sb Hn.
  - simpl. f_equal. induction sb as [|x sb IHs]; [done|].
    change (String x sb = String x (sb +:+ "")). by f_equal.
  - destruct (events !! i) as [event|] eqn:He.
    2:{ apply lookup_ge_None in He. lia. }
    cbn [sampleLoop]. rewrite He, IH by lia.
    rewrite (drop_S _ _ _ He). cbn [take foldr]. f_equal.
    unfold sampleLine. by rewrite !string_app_assoc.
Qed.

Section SummaryProperties.
Context `{Fmt}.

(** X18. [GetSummary] indexes the events within their range only, so it
    always returns: "No events found" for a result without events, whatever
    its total says, and else the head of the summary, the date strings of
    the first and of the last event, and one line for each of the first
    three events, or for all when there are fewer. *)
Theorem GetSummary_samples (r : ScrapingResult) :
  (Events r = [] → GetSummary r = Some "No events found")
  ∧ (∀ first rest,
       Events r = first :: rest →
       GetSummary r
       = Some (summaryHead r
               +:+ "Date Range: " +:+ DateTime first +:+ " to "
               +:+ DateTime (List.last rest first) +:+ newline
               +:+ newline +:+ "Sample Events:" +:+ newline
               +:+ foldr (fun event rows => sampleLine event +:+ rows) ""
                     (take 3 (Events r)))).
Proof.
  split.
  - intros Hnil. unfold GetSummary. by rewrite Hnil.
  - intros first rest Hev. unfold GetSummary. rewrite Hev.
    assert (Hlen : len (first :: rest) = Z.of_nat (S (length rest))) by done.
    rewrite Hlen.
    replace (Z.of_nat (S (length rest)) =? 0) with false
      by (symmetry; apply Z.eqb_neq; lia).
    replace (0 <? Z.of_nat (S (length rest))) with true
      by (symmetry; apply Z.ltb_lt; lia).
    replace (Z.to_nat (Z.of_nat (S (length rest)) - 1)) with (length rest) by lia.
    rewrite lookup_List_last. cbn [lookup list_lookup].
    rewrite sampleLoop_spec.
    + rewrite drop_0.
      replace (take (Z.to_nat (if Z.of_nat (S (length rest)) <? 3
                               then Z.of_nat (S (length rest)) else 3))
                 (first :: rest))
        with (take 3 (first :: rest)).
      { f_equal. unfold summaryHead. by rewrite !string_app_assoc. }
      destruct (Z.ltb_spec (Z.of_nat (S (length rest))) 3) as [Hlt|Hge].
      * rewrite Nat2Z.id. rewrite !take_ge; [done|simpl; lia|simpl; lia].
      * done.
    + destruct (Z.ltb_spec (Z.of_nat (S (length rest))) 3); simpl; lia.
Qed.

End SummaryProperties.

(* ===================================================================== *)
(** * Closed instances of the further properties *)
(* ===================================================================== *)

Lemma truncate_fits_witness :
  3 <= 10
  ∧ truncate "Real Madrid vs Barcelona" 10 = "Real Ma..."
  ∧ truncate (truncate "Real Madrid vs Barcelona" 10) 10 = "Real Ma...".
Proof.
  assert (H3 : 3 <= 10) by lia.
  destruct (truncate_fits "Real Madrid vs Barcelona" 10 H3) as (_ & _ & _ & Hidem).
  split; [exact H3|]. split; [vm_compute; reflexivity|].
  rewrite Hidem. vm_compute. reflexivity.
Defined.

Lemma scrapers_keep_linked_elements_witness :
  hello_href sampleElement ≠ ""
  ∧ @parseTicketEvent asciiOnly NewScraper sampleElement ≠ None.
Proof.
  destruct (@scrapers_keep_linked_elements asciiOnly) as (Hp & _).
  split; [discriminate|]. intros Hn. apply Hp in Hn. discriminate.
Defined.


Lemma filters_commute_witness :
  FilterByDate (fun _ => noon) (@FilterByKeyword asciiOnly sampleResult "madrid")
    newYear2025 newYearsEve2025
  = @FilterByKeyword asciiOnly
      (FilterByDate (fun _ => noon) sampleResult newYear2025 newYearsEve2025)
      "madrid".
Proof.
  apply (@filters_commute asciiOnly sampleResult "madrid" (fun _ => noon) noon).
  intros i. reflexivity.
Defined.

Lemma FilterByDate_narrowing_witness :
  FilterByDate (fun _ => noon)
    (FilterByDate (fun _ => noon) sampleResult newYear2025 newYearsEve2025)
    noon newYearsEve2025
  = FilterByDate (fun _ => noon) sampleResult noon newYearsEve2025.
Proof.
  apply (FilterByDate_narrowing sampleResult (fun _ => noon) noon).
  - intros i. reflexivity.
  - vm_compute. discriminate.
  - vm_compute. discriminate.
Defined.

Lemma FilterByDate_empty_range_witness :
  Events (FilterByDate (fun _ => noon) sampleResult newYearsEve2025 newYear2025)
  = [ mkTicketEvent "to be announced" "Real Madrid vs Getafe" "https://b"
        "vividseats" ].
Proof.
  rewrite (FilterByDate_empty_range sampleResult (fun _ => noon)
             newYearsEve2025 newYear2025).
  - vm_compute. reflexivity.
  - vm_compute. reflexivity.
Defined.

Lemma FilterByDate_clock_independent_witness :
  FilterByDate (fun _ => noon) datedResult newYear2025 newYearsEve2025
  = FilterByDate (fun _ => newYear2025) datedResult newYear2025 newYearsEve2025.
Proof.
  apply FilterByDate_clock_independent.
  intros event f t Hin Hf. apply list_elem_of_In in Hin.
  destruct Hin as [<-|[<-|[]]];
    repeat (destruct Hf as [<-|Hf];
            [vm_compute; first [discriminate|intros [= <-]; discriminate]|]);
    destruct Hf.
Defined.

Lemma inferred_year_next_occurrence_witness :
  (parseEventDate noon "27 Sep Sat 4:15pm").2 = None
  ∧ dateLe noon (parseEventDate noon "27 Sep Sat 4:15pm").1
  ∧ dateLe (parseEventDate noon "27 Sep Sat 4:15pm").1
      (time.mkTime (time.Year noon + 1) (time.Month noon) (time.Day noon)
         0 0 0 0 0).
Proof.
  apply (inferred_year_next_occurrence noon "27 Sep Sat 4:15pm" []
           layoutDayMonthWeekdayTime (List.tl formats)
           (time.mkTime 0 9 27 16 15 0 0 0)).
  - reflexivity.
  - constructor.
  - vm_compute. reflexivity.
  - reflexivity.
  - vm_compute. split; discriminate.
Defined.

Lemma formatDateWithYear_splits_year_witness :
  @formatDateWithYear asciiOnly NewVividSeatsScraper "Jan 182026" = "Jan 18 2026".
Proof.
  apply (proj1 (@formatDateWithYear_splits_year asciiOnly NewVividSeatsScraper
                  "Jan 182026") "Jan" "18" "2026" []).
  - vm_compute. reflexivity.
  - discriminate.
  - reflexivity.
Defined.

Lemma findBestSimilarTeam_order_independent_witness :
  @findBestSimilarTeam exactScores NewTeamNameNormalizer
    ["madrid"; "real madrid"] "real madrd"
  = @findBestSimilarTeam exactScores NewTeamNameNormalizer
      ["real madrid"; "madrid"] "real madrd".
Proof.
  apply (@findBestSimilarTeam_order_independent exactScores).
  - apply perm_swap.
  - intros a b Ha Hb _ _ _. apply list_elem_of_In in Ha, Hb.
    destruct Ha as [<-|[<-|[]]]; destruct Hb as [<-|[<-|[]]];
      vm_compute; reflexivity.
Defined.


Lemma normalizeTeamName_idempotent_witness :
  @normalizeTeamName asciiOnly exactScores NewTeamNameNormalizer tableOrder
    (@normalizeTeamName asciiOnly exactScores NewTeamNameNormalizer tableOrder
       "FC Barcelona")
  = @normalizeTeamName asciiOnly exactScores NewTeamNameNormalizer tableOrder
      "FC Barcelona".
Proof.
  apply (@normalizeTeamName_idempotent asciiOnly exactScores).
  - reflexivity.
  - reflexivity.
  - vm_compute. reflexivity.
  - vm_compute. reflexivity.
Defined.

Lemma handleScrape_answers_from_scrape_witness :
  ∃ result,
    (@scrapeSwitch asciiOnly sampleEnv (requestedSource sampleQuery)).1
    = inr (Some result, None)
    ∧ sublist (Link <$> Events sampleScraped) (Link <$> Events result).
Proof.
  assert (Hh : @handleScrape asciiOnly exactScores sampleEnv sampleQuery
               = (Encoded sampleScraped, [HelloTickets]))
    by (vm_compute; reflexivity).
  destruct (@handleScrape_answers_from_scrape asciiOnly exactScores sampleEnv
              sampleQuery sampleScraped [HelloTickets] Hh)
    as (result & Hs & Hl & _).
  exists result. by split.
Defined.

Lemma normalizeDateTime_keeps_dates_witness :
  @normalizeDateTime asciiOnly NewTeamNameNormalizer (DateTime novemberEvent)
  = "27 Nov Sat 4:15pm".
Proof.
  destruct (@normalizeDateTime_keeps_dates asciiOnly exactScores
              NewTeamNameNormalizer (tableOrder, tableOrder) novemberEvent)
    as [Heq _].
  - vm_compute. reflexivity.
  - rewrite Heq. vm_compute. reflexivity.
Defined.

Lemma SaveToFile_writes_once_witness :
  (@SaveToFile asciiOnly idleHost sampleResult "events.txt" "TXT").2 ≠ [].
Proof.
  apply (@SaveToFile_writes_once asciiOnly idleHost sampleResult "events.txt" "TXT").
  vm_compute. reflexivity.
Defined.

Lemma GetSummary_samples_witness :
  ∃ text, @GetSummary silentFmt sampleResult = Some text.
Proof.
  eexists.
  apply (proj2 (@GetSummary_samples silentFmt sampleResult) _ _ eq_refl).
Defined.
